(** * Batch driver and augmented chat requester: a shallow embedding

    The repository holds two command-line programs, [batch/batch.py] and
    [data_sources/data_sources.py].  Both are straight-line sequences of
    SDK calls around two polling loops.  The embedding below keeps the
    control flow of the two [main] functions as it is written and makes
    the outside world explicit:

    - every call into a library or the remote service is answered by a
      [World], a script that says what the n-th call of each kind returns
      or raises;
    - every observable action (a line printed, a log record, a sleep, a
      remote call together with its answer) is appended to a [trace];
    - Python exceptions, [sys.exit] and the bare and the typed [except]
      clauses are modelled by the [outcome] type and two handlers;
    - the two [while] loops take a bound on the number of iterations, and
      a run that needs more is reported as [OutOfFuel]. *)

From Stdlib Require Import String Ascii List ZArith Lia Bool Arith.
From Stdlib Require Import DecimalString.
Import ListNotations.
Local Open Scope string_scope.
Set Warnings "-register-all".

(** ** Python values used by the programs *)

Module Py.

(** An instance of a subclass of [Exception], as the libraries raise
    them: the class name and the message. *)
Record error := mkError { err_class : string; err_msg : string }.

(** What a [raise] propagates: an ordinary exception, or the
    [SystemExit] that [sys.exit(code)] raises. *)
Inductive exn :=
| Exception (e : error)
| SystemExit (code : Z).

(** Result of a library call: the returned value or the raised error. *)
Inductive result (A : Type) :=
| Ok (a : A)
| Err (e : error).
Arguments Ok {A} a.
Arguments Err {A} e.

(** [str(x)] for an [Optional[str]]. *)
Definition str_of_opt (x : option string) : string :=
  match x with
  | Some s => s
  | None => "None"
  end.

(** Truth value of an [Optional[str]]: [None] and the empty string are
    false. *)
Definition truthy (x : option string) : bool :=
  match x with
  | Some s => negb (String.eqb s EmptyString)
  | None => false
  end.

(** [needle in hay] on two strings: the substring test. *)
Fixpoint str_in (needle hay : string) : bool :=
  String.prefix needle hay ||
  match hay with
  | EmptyString => false
  | String _ rest => str_in needle rest
  end.

(** [x in t] for a tuple of strings: equality with one of the items. *)
Definition tuple_in (x : string) (t : list string) : bool :=
  existsb (String.eqb x) t.

(** [str.isspace] on one character, for code points below 256. *)
Definition isspace (c : ascii) : bool :=
  let n := nat_of_ascii c in
  (((9 <=? n) && (n <=? 13)) || ((28 <=? n) && (n <=? 32))
   || (n =? 133) || (n =? 160))%nat.

Fixpoint lstrip (s : string) : string :=
  match s with
  | String c rest => if isspace c then lstrip rest else s
  | EmptyString => EmptyString
  end.

Fixpoint rstrip (s : string) : string :=
  match s with
  | String c rest =>
      match rstrip rest with
      | EmptyString => if isspace c then EmptyString else String c EmptyString
      | r => String c r
      end
  | EmptyString => EmptyString
  end.

(** [s.strip()]. *)
Definition strip (s : string) : string := rstrip (lstrip s).

(** [s.split(sep)] for a one-character separator: the pieces between the
    separators, empty pieces kept, never an empty list. *)
Fixpoint split (sep : ascii) (s : string) : list string :=
  match s with
  | EmptyString => [EmptyString]
  | String c rest =>
      if Ascii.eqb c sep then EmptyString :: split sep rest
      else
        match split sep rest with
        | piece :: pieces => String c piece :: pieces
        | [] => [String c EmptyString]
        end
  end.

(** [s.upper()] on the ASCII letters. *)
Definition upper_char (c : ascii) : ascii :=
  let n := nat_of_ascii c in
  if ((97 <=? n) && (n <=? 122))%nat then ascii_of_nat (n - 32) else c.

Fixpoint upper (s : string) : string :=
  match s with
  | EmptyString => EmptyString
  | String c rest => String (upper_char c) (upper rest)
  end.

Definition newline : ascii := ascii_of_nat 10.

End Py.

(** ** The SDK objects the programs read *)

Module Sdk.
Import Py.

(** [FileObject]: the fields the batch driver reads. *)
Record FileObject := mkFile { file_id : string; file_status : string }.

(** One record of [Batch.errors.data]. *)
Record BatchError := mkBatchError {
  error_code : option string;
  error_message : option string
}.

(** [Batch.errors]; its [data] attribute is optional. *)
Record Errors := mkErrors { errors_data : option (list BatchError) }.

(** [Batch]: the fields the batch driver reads.  [errors],
    [output_file_id] and [error_file_id] are optional in the SDK. *)
Record Batch := mkBatch {
  batch_id : string;
  batch_status : string;
  batch_errors : option Errors;
  output_file_id : option string;
  error_file_id : option string
}.

(** A Python value as it occurs in the keyword arguments of the chat
    request: dictionaries keep their insertion order. *)
Inductive pyval :=
| VNone
| VBool (b : bool)
| VInt (n : Z)
| VStr (s : string)
| VList (items : list pyval)
| VDict (entries : list (string * pyval)).

(** [os.getenv] returns a string or [None]. *)
Definition of_env (x : option string) : pyval :=
  match x with
  | Some s => VStr s
  | None => VNone
  end.

(** [d[key]] on the entries of a dictionary. *)
Fixpoint dict_get (key : string) (entries : list (string * pyval))
  : option pyval :=
  match entries with
  | [] => None
  | (k, v) :: rest => if String.eqb k key then Some v else dict_get key rest
  end.

(** The keyword arguments of [client.chat.completions.create]. *)
Record ChatRequest := mkChatRequest {
  req_model : pyval;
  req_messages : pyval;
  req_max_tokens : Z;
  req_extra_body : pyval
}.

(** [ChatCompletion]: the choices, each reduced to its message content. *)
Record Choice := mkChoice { message_content : option string }.
Record ChatCompletion := mkChatCompletion { choices : list Choice }.

(** Opaque handles. *)
Definition credential := nat.
Definition token_provider := nat.
Definition client := nat.

(** The world outside the program: what each library or service call
    answers.  The polling calls are answered by call number, counted from
    zero per kind of call, so that a service may change its answer from
    one poll to the next. *)
Record World := mkWorld {
  logging_basicConfig : option Z -> result unit;
  load_dotenv : string -> result bool;
  getenv : string -> option string;
  DefaultAzureCredential : result credential;
  get_bearer_token_provider : credential -> string -> result token_provider;
  AzureOpenAI :
    option string -> option string -> token_provider -> result client;
  open_rb : string -> result string;
  datetime_now : nat -> string;
  files_create : string -> string -> result FileObject;
  files_retrieve : nat -> string -> result FileObject;
  batches_create : nat -> string -> string -> string -> result Batch;
  batches_retrieve : nat -> string -> result Batch;
  files_content : string -> result string;
  file_dump_json : FileObject -> nat -> string;
  batch_dump_json : Batch -> nat -> string;
  chat_completions_create : ChatRequest -> result ChatCompletion
}.

(** The [json] module: the parsed value type, [json.loads] and
    [json.dumps(value, indent=n)]. *)
Record JsonLib := mkJsonLib {
  json : Type;
  json_loads : string -> result json;
  json_dumps : json -> nat -> string
}.

(** ** Observable actions *)

Inductive event :=
| Stdout (line : string)
| Stderr (line : string)
| LogError (msg : string) (exc_info : exn)
| Sleep (seconds : Z)
| FilesCreate (content purpose : string) (r : result FileObject)
| FilesRetrieve (id : string) (r : result FileObject)
| BatchesCreate (input_file_id endpoint completion_window : string)
    (r : result Batch)
| BatchesRetrieve (id : string) (r : result Batch)
| FilesContent (id : string) (r : result string)
| ChatCreate (req : ChatRequest) (r : result ChatCompletion).

Definition trace := list event.

Definition is_files_retrieve (e : event) : bool :=
  match e with FilesRetrieve _ _ => true | _ => false end.
Definition is_batches_create (e : event) : bool :=
  match e with BatchesCreate _ _ _ _ => true | _ => false end.
Definition is_batches_retrieve (e : event) : bool :=
  match e with BatchesRetrieve _ _ => true | _ => false end.
Definition is_files_content (e : event) : bool :=
  match e with FilesContent _ _ => true | _ => false end.
Definition is_chat_create (e : event) : bool :=
  match e with ChatCreate _ _ => true | _ => false end.
Definition is_stdout (e : event) : bool :=
  match e with Stdout _ => true | _ => false end.

(** Number of actions of one kind performed so far. *)
Definition calls (kind : event -> bool) (tr : trace) : nat :=
  length (filter kind tr).

(** The lines printed to standard output, oldest first. *)
Fixpoint stdout_of (tr : trace) : list string :=
  match tr with
  | [] => []
  | Stdout line :: rest => line :: stdout_of rest
  | _ :: rest => stdout_of rest
  end.

(** The durations of the sleeps, oldest first. *)
Fixpoint sleeps_of (tr : trace) : list Z :=
  match tr with
  | [] => []
  | Sleep seconds :: rest => seconds :: sleeps_of rest
  | _ :: rest => sleeps_of rest
  end.

(** ** The interpreter monad *)

(** How a computation ends: with a value, with a propagating exception,
    or not within the allotted loop iterations. *)
Inductive outcome (A : Type) :=
| Ret (a : A)
| Raise (e : exn)
| OutOfFuel.
Arguments Ret {A} a.
Arguments Raise {A} e.
Arguments OutOfFuel {A}.

Definition M (A : Type) := trace -> outcome A * trace.

Definition ret {A} (a : A) : M A := fun tr => (Ret a, tr).

Definition bind {A B} (m : M A) (k : A -> M B) : M B :=
  fun tr =>
    match m tr with
    | (Ret a, tr') => k a tr'
    | (Raise e, tr') => (Raise e, tr')
    | (OutOfFuel, tr') => (OutOfFuel, tr')
    end.

Definition raise {A} (e : exn) : M A := fun tr => (Raise e, tr).

Definition out_of_fuel {A} : M A := fun tr => (OutOfFuel, tr).

Definition emit (e : event) : M unit := fun tr => (Ret tt, (tr ++ [e])%list).

(** A library call that leaves no mark on the trace. *)
Definition lift {A} (r : result A) : M A :=
  match r with
  | Ok a => ret a
  | Err e => raise (Exception e)
  end.

(** A remote call: the answer is recorded, then returned or raised. *)
Definition remote {A} (ev : result A -> event) (r : result A) : M A :=
  bind (emit (ev r)) (fun _ => lift r).

(** [try: m except Exception as e: h e]: [SystemExit] is not an
    [Exception] and passes through. *)
Definition try_except_Exception {A} (m : M A) (h : error -> M A) : M A :=
  fun tr =>
    match m tr with
    | (Raise (Exception e), tr') => h e tr'
    | r => r
    end.

(** [try: m except: h]: the bare clause catches everything raised. *)
Definition try_except {A} (m : M A) (h : exn -> M A) : M A :=
  fun tr =>
    match m tr with
    | (Raise e, tr') => h e tr'
    | r => r
    end.

(** [sys.exit(code)]. *)
Definition sys_exit {A} (code : Z) : M A := raise (SystemExit code).

(** [print(line)]. *)
Definition print (line : string) : M unit := emit (Stdout line).

(** [logging.error(msg, exc_info=True)] inside a handler for [e]. *)
Definition logging_error (msg : string) (e : exn) : M unit :=
  emit (LogError msg e).

(** [time.sleep(seconds)]. *)
Definition time_sleep (seconds : Z) : M unit := emit (Sleep seconds).

(** [datetime.datetime.now()] rendered by an f-string.  The clock is
    read as a function of the number of actions performed so far. *)
Definition now (W : World) : M string :=
  fun tr => (Ret (datetime_now W (length tr)), tr).

(** Reading a local variable that may still be unbound. *)
Definition read_local {A} (name : string) (v : option A) : M A :=
  match v with
  | Some a => ret a
  | None =>
      raise (Exception (mkError "UnboundLocalError"
        ("cannot access local variable '" ++ name
           ++ "' where it is not associated with a value")))
  end.

(** The exit status of the process for an outcome of [main]: 0 on a
    normal return, the code of a [SystemExit], 1 after an uncaught
    exception; none while the program is still running. *)
Definition exit_code (o : outcome unit) : option Z :=
  match o with
  | Ret _ => Some 0%Z
  | Raise (SystemExit code) => Some code
  | Raise (Exception _) => Some 1%Z
  | OutOfFuel => None
  end.

Module Notations.
  Notation "x <- m ;; k" := (bind m (fun x => k))
    (at level 61, m at next level, right associativity).
  Notation "m ;; k" := (bind m (fun _ => k))
    (at level 61, right associativity).
End Notations.

(** ** Code shared by the two programs *)

Import Notations.

(** [getattr(logging, name, None)] on the level constants of the
    [logging] module. *)
Definition logging_getattr (name : string) : option Z :=
  if String.eqb name "CRITICAL" then Some 50%Z
  else if String.eqb name "FATAL" then Some 50%Z
  else if String.eqb name "ERROR" then Some 40%Z
  else if String.eqb name "WARNING" then Some 30%Z
  else if String.eqb name "WARN" then Some 30%Z
  else if String.eqb name "INFO" then Some 20%Z
  else if String.eqb name "DEBUG" then Some 10%Z
  else if String.eqb name "NOTSET" then Some 0%Z
  else None.

(** [configure_logging(level)]. *)
Definition configure_logging (W : World) (level : string) : M unit :=
  try_except_Exception
    (let logging_level := logging_getattr (upper level) in
     lift (logging_basicConfig W logging_level))
    (fun e =>
       emit (Stderr ("Failed to set up logging: " ++ err_msg e)) ;;
       sys_exit 1%Z).

(** [authenticate_with_service_principal(scope)]. *)
Definition authenticate_with_service_principal (W : World) (scope : string)
  : M token_provider :=
  try_except
    (cred <- lift (DefaultAzureCredential W) ;;
     token_provider <- lift (get_bearer_token_provider W cred scope) ;;
     ret token_provider)
    (fun e =>
       logging_error "Failed to obtain access token: " e ;;
       sys_exit 1%Z).

End Sdk.

(** ** batch/batch.py *)

Module Batch.
Import Py Sdk Sdk.Notations.

(** The local variables of [main] that the two loops assign.
    [batch_response] and [batch_id] are unbound until the first loop
    assigns them. *)
Record locals := mkLocals {
  v_file : FileObject;
  v_file_id : string;
  v_status : string;
  v_batch_response : option Batch;
  v_batch_id : option string
}.

(** The n-th remote call of a kind: the world is asked with the number
    of calls of that kind already made. *)
Definition remote_nth {A} (kind : event -> bool) (ev : result A -> event)
    (answer : nat -> result A) : M A :=
  fun tr => remote ev (answer (calls kind tr)) tr.

(** [for x in items: body x]. *)
Fixpoint for_each {A} (items : list A) (body : A -> M unit) : M unit :=
  match items with
  | [] => ret tt
  | x :: rest => body x ;; for_each rest body
  end.

(** The tuple of the second loop's test. *)
Definition terminal_statuses : list string :=
  ["completed"; "failed"; "cancelled"].

Section Program.

Variable W : World.
Variable J : JsonLib.

(** Lines 86-100: the loop on the file status.  Its test is
    [status not in ("processed")]; the parentheses hold a string, not a
    tuple, so [in] is the substring test.  The batch job is created in
    the body of the loop. *)
Fixpoint file_loop (fuel : nat) (L : locals) : M locals :=
  if negb (str_in (v_status L) "processed") then
    match fuel with
    | O => out_of_fuel
    | S fuel' =>
        t <- now W ;;
        print (t ++ " - File Id: " ++ v_file_id L
                 ++ ", Status: " ++ v_status L) ;;
        time_sleep 30%Z ;;
        file <- remote_nth is_files_retrieve (FilesRetrieve (v_file_id L))
                  (fun n => files_retrieve W n (v_file_id L)) ;;
        let status := file_status file in
        t <- now W ;;
        print (t ++ " - File Id: " ++ v_file_id L
                 ++ ", Status: " ++ status) ;;
        batch_response <-
          remote_nth is_batches_create
            (BatchesCreate (file_id file) "/chat/completions" "24h")
            (fun n =>
               batches_create W n (file_id file) "/chat/completions" "24h") ;;
        let batch_id := batch_id batch_response in
        print (batch_dump_json W batch_response 2) ;;
        file_loop fuel'
          (mkLocals file (v_file_id L) status
             (Some batch_response) (Some batch_id))
    end
  else ret L.

(** Lines 114-116: the error records of a failed batch. *)
Definition print_errors (batch_response : Batch) : M unit :=
  match batch_errors batch_response with
  | None =>
      raise (Exception (mkError "AttributeError"
        "'NoneType' object has no attribute 'data'"))
  | Some errors =>
      match errors_data errors with
      | None =>
          raise (Exception (mkError "TypeError"
            "'NoneType' object is not iterable"))
      | Some data =>
          for_each data (fun error =>
            print ("Error code: " ++ str_of_opt (error_code error)
                     ++ " Message " ++ str_of_opt (error_message error)))
      end
  end.

(** Lines 105-116: the loop on the batch status. *)
Fixpoint batch_loop (fuel : nat) (L : locals) : M locals :=
  if negb (tuple_in (v_status L) terminal_statuses) then
    match fuel with
    | O => out_of_fuel
    | S fuel' =>
        t <- now W ;;
        id <- read_local "batch_id" (v_batch_id L) ;;
        print (t ++ " - Batch Id: " ++ id ++ ", Status: " ++ v_status L) ;;
        time_sleep 5%Z ;;
        id <- read_local "batch_id" (v_batch_id L) ;;
        batch_response <-
          remote_nth is_batches_retrieve (BatchesRetrieve id)
            (fun n => batches_retrieve W n id) ;;
        let status := batch_status batch_response in
        t <- now W ;;
        id <- read_local "batch_id" (v_batch_id L) ;;
        print (t ++ " - Batch Id: " ++ id ++ ", Status: " ++ status) ;;
        (if String.eqb (batch_status batch_response) "failed"
         then print_errors batch_response
         else ret tt) ;;
        batch_loop fuel'
          (mkLocals (v_file L) (v_file_id L) status
             (Some batch_response) (v_batch_id L))
    end
  else ret L.

(** Lines 118-120: the id of the file to fetch. *)
Definition select_file_id (batch_response : Batch) : option string :=
  let output_file_id := output_file_id batch_response in
  if negb (truthy output_file_id)
  then error_file_id batch_response
  else output_file_id.

(** Lines 125-128: one record of the result file. *)
Definition print_record (raw_response : string) : M unit :=
  json_response <- lift (json_loads J raw_response) ;;
  let formatted_json := json_dumps J json_response 2 in
  print formatted_json.

(** Lines 118-128: retrieval and printing of the result file. *)
Definition fetch_output (L : locals) : M unit :=
  batch_response <- read_local "batch_response" (v_batch_response L) ;;
  let output_file_id := select_file_id batch_response in
  if truthy output_file_id then
    let id := str_of_opt output_file_id in
    text <- remote (FilesContent id) (files_content W id) ;;
    let raw_responses := split newline (strip text) in
    for_each raw_responses print_record
  else ret tt.

(** Lines 68-100: the client, the upload and the first loop. *)
Definition upload_and_wait (fuel : nat) (token_provider : token_provider)
  : M locals :=
  client <- lift (AzureOpenAI W (getenv W "OPENAI_API_VERSION")
                    (getenv W "AZURE_OPENAI_ENDPOINT") token_provider) ;;
  content <- lift (open_rb W "sample.jsonl") ;;
  file <- remote (FilesCreate content "batch")
            (files_create W content "batch") ;;
  print (file_dump_json W file 2) ;;
  let file_id := file_id file in
  let status := "pending" in
  file_loop fuel (mkLocals file file_id status None None).

(** Lines 104-116: the second loop, entered with [status] reset. *)
Definition wait_for_batch (fuel : nat) (L : locals) : M locals :=
  let status := "validating" in
  batch_loop fuel
    (mkLocals (v_file L) (v_file_id L) status
       (v_batch_response L) (v_batch_id L)).

(** Lines 65-128: the body of the [try] statement. *)
Definition batch_chat_completion (fuel : nat)
    (token_provider : token_provider) : M unit :=
  L <- upload_and_wait fuel token_provider ;;
  L <- wait_for_batch fuel L ;;
  fetch_output L.

Definition scope : string := "https://cognitiveservices.azure.com/.default".

(** [main()].  [fuel] bounds the iterations of each loop. *)
Definition main (fuel : nat) : M unit :=
  configure_logging W "ERROR" ;;
  try_except_Exception
    (lift (load_dotenv W ".env") ;; ret tt)
    (fun e =>
       logging_error "Failed to load environmental variables: "
         (Exception e) ;;
       sys_exit 1%Z) ;;
  token_provider <- authenticate_with_service_principal W scope ;;
  try_except
    (batch_chat_completion fuel token_provider)
    (fun e => logging_error "Failed batch chat completion: " e).

End Program.

End Batch.

(** ** data_sources/data_sources.py *)

Module DataSources.
Import Py Sdk Sdk.Notations.

Section Requester.

Variable W : World.

(** Lines 88-110: the [extra_body] argument. *)
Definition extra_body : pyval :=
  VDict [
    ("data_sources", VList [
      VDict [
        ("type", VStr "azure_search");
        ("parameters", VDict [
          ("endpoint", of_env (getenv W "AZURE_AI_SEARCH_ENDPOINT"));
          ("index_name", of_env (getenv W "AZURE_AI_SEARCH_INDEX_NAME"));
          ("in_scope", VBool true);
          ("query_type", VStr "vector_semantic_hybrid");
          ("embedding_dependency", VDict [
            ("type", VStr "deployment_name");
            ("deployment_name",
               of_env (getenv W "EMBEDDING_DEPLOYMENT_NAME"))
          ]);
          ("semantic_configuration",
             of_env (getenv W "AZURE_AI_SEARCH_SEMANTIC_CONFIG_NAME"));
          ("top_n_documents", VInt 3);
          ("max_search_queries", VInt 3);
          ("authentication", VDict [
            ("type", VStr "system_assigned_managed_identity")
          ])
        ])
      ]
    ])
  ].

(** Lines 73-111: the keyword arguments of the one request. *)
Definition chat_request : ChatRequest :=
  mkChatRequest
    (of_env (getenv W "LLM_DEPLOYMENT_NAME"))
    (VList [
       VDict [("role", VStr "system");
              ("content", VStr "You are helpful assistant.")];
       VDict [("role", VStr "user");
              ("content", VStr "What was Microsoft's income?")]
     ])
    100
    extra_body.

(** [items[0]]. *)
Definition first {A} (items : list A) : M A :=
  match items with
  | x :: _ => ret x
  | [] => raise (Exception (mkError "IndexError" "list index out of range"))
  end.

(** Lines 64-112: the body of the [try] statement. *)
Definition chat_completion (token_provider : token_provider) : M unit :=
  client <- lift (AzureOpenAI W (getenv W "OPENAI_API_VERSION")
                    (getenv W "AZURE_OPENAI_ENDPOINT") token_provider) ;;
  response <- remote (ChatCreate chat_request)
                (chat_completions_create W chat_request) ;;
  choice <- first (choices response) ;;
  print (str_of_opt (message_content choice)).

Definition scope : string := "https://cognitiveservices.azure.com/.default".

(** [main()]. *)
Definition main : M unit :=
  configure_logging W "ERROR" ;;
  try_except_Exception
    (lift (load_dotenv W ".env") ;; ret tt)
    (fun e =>
       logging_error "Failed to load environmental variables: "
         (Exception e) ;;
       sys_exit 1%Z) ;;
  token_provider <- authenticate_with_service_principal W scope ;;
  try_except
    (chat_completion token_provider)
    (fun e => logging_error "Failed chat completion: " e).

End Requester.

(** Reading the request back: the entries of [extra_body["data_sources"]]
    and one parameter of an entry. *)
Definition data_sources_of (req : ChatRequest) : option (list pyval) :=
  match req_extra_body req with
  | VDict body =>
      match dict_get "data_sources" body with
      | Some (VList sources) => Some sources
      | _ => None
      end
  | _ => None
  end.

Definition parameter_of (source : pyval) (name : string) : option pyval :=
  match source with
  | VDict entry =>
      match dict_get "parameters" entry with
      | Some (VDict parameters) => dict_get name parameters
      | _ => None
      end
  | _ => None
  end.

End DataSources.

(** ** A model of the [json] module

    [json.loads] and [json.dumps(value, indent=n)] on the fragment of
    JSON without fractions, exponents and [\u] escapes, for code points
    below 128.  The programs are verified for any [JsonLib]; this one
    makes the concrete runs below computable. *)

Module Json.
Import Py Sdk.

Inductive value :=
| JNull
| JBool (b : bool)
| JInt (n : Z)
| JString (s : string)
| JArray (items : list value)
| JObject (members : list (string * value)).

(** Assignment to a key of a [dict]: an existing key keeps its place. *)
Fixpoint dict_set (k : string) (v : value) (d : list (string * value))
  : list (string * value) :=
  match d with
  | [] => [(k, v)]
  | (k', v') :: rest =>
      if String.eqb k' k then (k', v) :: rest
      else (k', v') :: dict_set k v rest
  end.

Definition dquote : ascii := ascii_of_nat 34.
Definition backslash : ascii := ascii_of_nat 92.

Definition is_ws (c : ascii) : bool :=
  let n := nat_of_ascii c in
  ((n =? 32) || (n =? 9) || (n =? 10) || (n =? 13))%nat.

Fixpoint skip_ws (s : string) : string :=
  match s with
  | String c rest => if is_ws c then skip_ws rest else s
  | EmptyString => EmptyString
  end.

Definition is_digit (c : ascii) : bool :=
  let n := nat_of_ascii c in ((48 <=? n) && (n <=? 57))%nat.

(** The digits at the head of [s], as a number, and the rest. *)
Fixpoint scan_digits (acc : Z) (s : string) : Z * string :=
  match s with
  | String c rest =>
      if is_digit c
      then scan_digits (acc * 10 + Z.of_nat (nat_of_ascii c - 48)) rest
      else (acc, s)
  | EmptyString => (acc, EmptyString)
  end.

(** An integer literal: [0] or a non-zero digit followed by digits; a
    fraction or an exponent after it is outside the fragment. *)
Definition scan_nat (s : string) : option (Z * string) :=
  match s with
  | String c rest =>
      if is_digit c then
        let '(n, rest') :=
          if Ascii.eqb c "0" then (0%Z, rest) else scan_digits 0 s in
        match rest' with
        | String "." _ | String "e" _ | String "E" _ => None
        | _ => Some (n, rest')
        end
      else None
  | EmptyString => None
  end.

(** The character an escape letter stands for. *)
Definition unescape (e : ascii) : option ascii :=
  if Ascii.eqb e dquote then Some e
  else if Ascii.eqb e backslash then Some e
  else if Ascii.eqb e "/" then Some e
  else if Ascii.eqb e "b" then Some (ascii_of_nat 8)
  else if Ascii.eqb e "f" then Some (ascii_of_nat 12)
  else if Ascii.eqb e "n" then Some (ascii_of_nat 10)
  else if Ascii.eqb e "r" then Some (ascii_of_nat 13)
  else if Ascii.eqb e "t" then Some (ascii_of_nat 9)
  else None.

(** The characters of a string literal up to the closing quote. *)
Fixpoint scan_string (s : string) : option (string * string) :=
  match s with
  | EmptyString => None
  | String c rest =>
      if Ascii.eqb c dquote then Some (EmptyString, rest)
      else if Ascii.eqb c backslash then
        match rest with
        | String e rest' =>
            match unescape e, scan_string rest' with
            | Some u, Some (body, after) => Some (String u body, after)
            | _, _ => None
            end
        | EmptyString => None
        end
      else if ((nat_of_ascii c <? 32) || (127 <? nat_of_ascii c))%nat
      then None
      else
        match scan_string rest with
        | Some (body, after) => Some (String c body, after)
        | None => None
        end
  end.

Fixpoint parse_value (fuel : nat) (s : string) : option (value * string) :=
  match fuel with
  | O => None
  | S fuel' =>
      match skip_ws s with
      | String "{" rest =>
          match skip_ws rest with
          | String "}" after => Some (JObject [], after)
          | body => parse_members fuel' body []
          end
      | String "[" rest =>
          match skip_ws rest with
          | String "]" after => Some (JArray [], after)
          | body => parse_elements fuel' body []
          end
      | String "-" rest =>
          match scan_nat rest with
          | Some (n, after) => Some (JInt (- n), after)
          | None => None
          end
      | String "t" (String "r" (String "u" (String "e" after))) =>
          Some (JBool true, after)
      | String "f" (String "a" (String "l" (String "s" (String "e" after)))) =>
          Some (JBool false, after)
      | String "n" (String "u" (String "l" (String "l" after))) =>
          Some (JNull, after)
      | String c rest =>
          if Ascii.eqb c dquote then
            match scan_string rest with
            | Some (str, after) => Some (JString str, after)
            | None => None
            end
          else
            match scan_nat (String c rest) with
            | Some (n, after) => Some (JInt n, after)
            | None => None
            end
      | EmptyString => None
      end
  end

with parse_elements (fuel : nat) (s : string) (acc : list value)
  : option (value * string) :=
  match fuel with
  | O => None
  | S fuel' =>
      match parse_value fuel' s with
      | Some (v, rest) =>
          match skip_ws rest with
          | String "," more => parse_elements fuel' more (acc ++ [v])%list
          | String "]" after => Some (JArray (acc ++ [v])%list, after)
          | _ => None
          end
      | None => None
      end
  end

with parse_members (fuel : nat) (s : string) (acc : list (string * value))
  : option (value * string) :=
  match fuel with
  | O => None
  | S fuel' =>
      match skip_ws s with
      | String c rest =>
          if Ascii.eqb c dquote then
            match scan_string rest with
            | Some (key, after_key) =>
                match skip_ws after_key with
                | String ":" after_colon =>
                    match parse_value fuel' after_colon with
                    | Some (v, rest') =>
                        match skip_ws rest' with
                        | String "," more =>
                            parse_members fuel' more (dict_set key v acc)
                        | String "}" after =>
                            Some (JObject (dict_set key v acc), after)
                        | _ => None
                        end
                    | None => None
                    end
                | _ => None
                end
            | None => None
            end
          else None
      | EmptyString => None
      end
  end.

(** [json.loads(s)]. *)
Definition loads (s : string) : result value :=
  match parse_value (2 * String.length s + 2) s with
  | Some (v, rest) =>
      match skip_ws rest with
      | EmptyString => Ok v
      | _ => Err (mkError "JSONDecodeError" "Extra data")
      end
  | None => Err (mkError "JSONDecodeError" "Expecting value")
  end.

Definition hex_digit (n : nat) : ascii :=
  if (n <? 10)%nat then ascii_of_nat (48 + n) else ascii_of_nat (87 + n).

(** One character of a string under [ensure_ascii]. *)
Definition escape_char (c : ascii) : string :=
  let n := nat_of_ascii c in
  if Ascii.eqb c dquote then String backslash (String dquote EmptyString)
  else if Ascii.eqb c backslash
       then String backslash (String backslash EmptyString)
  else if (n =? 10)%nat then String backslash "n"
  else if (n =? 13)%nat then String backslash "r"
  else if (n =? 9)%nat then String backslash "t"
  else if (n =? 12)%nat then String backslash "f"
  else if (n =? 8)%nat then String backslash "b"
  else if ((32 <=? n) && (n <=? 126))%nat then String c EmptyString
  else String backslash
         ("u00" ++ String (hex_digit (n / 16))
                     (String (hex_digit (n mod 16)) EmptyString)).

Fixpoint escape (s : string) : string :=
  match s with
  | EmptyString => EmptyString
  | String c rest => escape_char c ++ escape rest
  end.

Definition quote (s : string) : string :=
  String dquote (escape s ++ String dquote EmptyString).

Fixpoint spaces (n : nat) : string :=
  match n with
  | O => EmptyString
  | S n' => String " " (spaces n')
  end.

Definition string_of_Z (n : Z) : string :=
  NilZero.string_of_int (Z.to_int n).

(** The text of [value] at nesting depth [level]. *)
Fixpoint dumps_at (indent level : nat) (v : value) : string :=
  let inner := String newline (spaces (indent * S level)) in
  let outer := String newline (spaces (indent * level)) in
  match v with
  | JNull => "null"
  | JBool true => "true"
  | JBool false => "false"
  | JInt n => string_of_Z n
  | JString s => quote s
  | JArray [] => "[]"
  | JArray items =>
      "[" ++ inner
        ++ String.concat ("," ++ inner) (map (dumps_at indent (S level)) items)
        ++ outer ++ "]"
  | JObject [] => "{}"
  | JObject members =>
      "{" ++ inner
        ++ String.concat ("," ++ inner)
             (map (fun member =>
                     quote (fst member) ++ ": "
                       ++ dumps_at indent (S level) (snd member))
                members)
        ++ outer ++ "}"
  end.

(** [json.dumps(v, indent=indent)]. *)
Definition dumps (v : value) (indent : nat) : string := dumps_at indent 0 v.

Definition lib : JsonLib := mkJsonLib value loads dumps.

End Json.

(** ** Scripted worlds for concrete runs *)

Module Scenario.
Import Py Sdk.

(** The n-th item of a script; the last one is repeated for ever. *)
Fixpoint script {A} (default : A) (items : list A) (n : nat) : A :=
  match items, n with
  | [], _ => default
  | [x], _ => x
  | x :: _, O => x
  | _ :: rest, S n' => script default rest n'
  end.

(** A service in which every call succeeds: the file goes through
    [file_statuses], the batch through [batches], and [contents] maps a
    file id to its text. *)
Definition service (file_statuses : list string) (batches : list Batch)
    (contents : string -> result string) : World :=
  {| logging_basicConfig := fun _ => Ok tt;
     load_dotenv := fun _ => Ok true;
     getenv := fun name => Some ("$" ++ name);
     DefaultAzureCredential := Ok 0;
     get_bearer_token_provider := fun _ _ => Ok 0;
     AzureOpenAI := fun _ _ _ => Ok 0;
     open_rb := fun _ => Ok "{}";
     datetime_now := fun _ => "now";
     files_create := fun _ _ => Ok (mkFile "file-1" "pending");
     files_retrieve := fun n id =>
       Ok (mkFile id (script "pending" file_statuses n));
     batches_create := fun n _ _ _ =>
       Ok (mkBatch "batch-1" "validating" None None None);
     batches_retrieve := fun n id =>
       Ok (script (mkBatch id "validating" None None None) batches n);
     files_content := contents;
     file_dump_json := fun f _ => file_id f;
     batch_dump_json := fun b _ => batch_id b;
     chat_completions_create := fun _ =>
       Ok (mkChatCompletion
             [mkChoice (Some "first answer"); mkChoice (Some "second")]) |}.

(** JSON text written with apostrophes in place of the double quotes. *)
Fixpoint json_text (s : string) : string :=
  match s with
  | EmptyString => EmptyString
  | String c rest =>
      String (if Ascii.eqb c "'" then Json.dquote else c) (json_text rest)
  end.

Definition no_content : string -> result string :=
  fun _ => Err (mkError "NotFoundError" "No such File object").

Definition batch_with (status : string) (output error : option string)
  : Batch :=
  mkBatch "batch-1" status None output error.

(** The two-line result file of the specification, ended by a line
    break, and an error file of one line. *)
Definition two_records : string :=
  json_text "{'a':1}" ++ String newline (json_text "{'b':2}")
    ++ String newline EmptyString.

Definition contents (id : string) : result string :=
  if String.eqb id "file-out" then Ok two_records
  else if String.eqb id "file-err"
       then Ok (json_text "{'error': 'invalid request'}")
  else no_content id.

(** The file is processed at the second poll; the batch completes at the
    second poll with an output file. *)
Definition two_polls : World :=
  service ["pending"; "processed"]
    [batch_with "in_progress" None None;
     batch_with "completed" (Some "file-out") None]
    contents.

(** The file status is reported as ["process"]. *)
Definition substring_status : World :=
  service ["process"] [batch_with "completed" (Some "file-out") None] contents.

(** The file status is reported as ["ed"] for ever. *)
Definition never_processed : World :=
  service ["ed"] [batch_with "completed" (Some "file-out") None] contents.

(** The batch is cancelled and has no file. *)
Definition no_files : World :=
  service ["processed"] [batch_with "cancelled" None None] contents.

(** The batch fails and has an error file only. *)
Definition failed_batch : Batch :=
  mkBatch "batch-1" "failed"
    (Some (mkErrors
             (Some [mkBatchError (Some "invalid_request")
                      (Some "The request is not valid.")])))
    None (Some "file-err").

Definition only_error_file : World :=
  service ["processed"] [failed_batch] contents.

(** The upload is refused. *)
Definition upload_refused : World :=
  let W := two_polls in
  {| logging_basicConfig := logging_basicConfig W;
     load_dotenv := load_dotenv W;
     getenv := getenv W;
     DefaultAzureCredential := DefaultAzureCredential W;
     get_bearer_token_provider := get_bearer_token_provider W;
     AzureOpenAI := AzureOpenAI W;
     open_rb := open_rb W;
     datetime_now := datetime_now W;
     files_create := fun _ _ =>
       Err (mkError "APIConnectionError" "Connection error.");
     files_retrieve := files_retrieve W;
     batches_create := batches_create W;
     batches_retrieve := batches_retrieve W;
     files_content := files_content W;
     file_dump_json := file_dump_json W;
     batch_dump_json := batch_dump_json W;
     chat_completions_create := chat_completions_create W |}.

(** The batch the service creates, and the local variables of [main]
    when the first loop is left in these worlds. *)
Definition created : Batch := mkBatch "batch-1" "validating" None None None.

Definition waited : Batch.locals :=
  Batch.mkLocals (mkFile "file-1" "processed") "file-1" "processed"
    (Some created) (Some "batch-1").

(** A failed batch without an [errors] object. *)
Definition failed_without_errors : World :=
  service ["processed"] [batch_with "failed" None (Some "file-err")] contents.

(** Result files with a line that is not JSON, and with white space
    only. *)
Definition more_contents (id : string) : result string :=
  if String.eqb id "file-bad"
  then Ok (json_text "{'a':1}" ++ String newline "not json"
             ++ String newline (json_text "{'b':2}"))
  else if String.eqb id "file-blank" then Ok (String newline EmptyString)
  else no_content id.

Definition bad_line : World :=
  service ["processed"] [batch_with "completed" (Some "file-bad") None]
    more_contents.

Definition blank_file : World :=
  service ["processed"] [batch_with "completed" (Some "file-blank") None]
    more_contents.

(** The file is processed at the third poll. *)
Definition three_polls : World :=
  service ["pending"; "running"; "processed"]
    [batch_with "completed" (Some "file-out") None] contents.

(** A world for the chat requester: the answers of the client
    constructor and of the one request. *)
Definition chat_service (made : result client)
    (answer : result ChatCompletion) : World :=
  let W := two_polls in
  {| logging_basicConfig := logging_basicConfig W;
     load_dotenv := load_dotenv W;
     getenv := getenv W;
     DefaultAzureCredential := DefaultAzureCredential W;
     get_bearer_token_provider := get_bearer_token_provider W;
     AzureOpenAI := fun _ _ _ => made;
     open_rb := open_rb W;
     datetime_now := datetime_now W;
     files_create := files_create W;
     files_retrieve := files_retrieve W;
     batches_create := batches_create W;
     batches_retrieve := batches_retrieve W;
     files_content := files_content W;
     file_dump_json := file_dump_json W;
     batch_dump_json := batch_dump_json W;
     chat_completions_create := fun _ => answer |}.

(** A world for the batch driver in which the client constructor, the
    opening of the input file and the upload answer as given. *)
Definition upload_service (made : result client) (opened : result string)
    (uploaded : result FileObject) : World :=
  let W := two_polls in
  {| logging_basicConfig := logging_basicConfig W;
     load_dotenv := load_dotenv W;
     getenv := getenv W;
     DefaultAzureCredential := DefaultAzureCredential W;
     get_bearer_token_provider := get_bearer_token_provider W;
     AzureOpenAI := fun _ _ _ => made;
     open_rb := fun _ => opened;
     datetime_now := datetime_now W;
     files_create := fun _ _ => uploaded;
     files_retrieve := files_retrieve W;
     batches_create := batches_create W;
     batches_retrieve := batches_retrieve W;
     files_content := files_content W;
     file_dump_json := file_dump_json W;
     batch_dump_json := batch_dump_json W;
     chat_completions_create := chat_completions_create W |}.

(** A world in which a start-up step fails. *)
Definition startup_service (configured : result unit)
    (loaded : result bool) (cred : result credential)
    (provider : result token_provider) : World :=
  let W := two_polls in
  {| logging_basicConfig := fun _ => configured;
     load_dotenv := fun _ => loaded;
     getenv := getenv W;
     DefaultAzureCredential := cred;
     get_bearer_token_provider := fun _ _ => provider;
     AzureOpenAI := AzureOpenAI W;
     open_rb := open_rb W;
     datetime_now := datetime_now W;
     files_create := files_create W;
     files_retrieve := files_retrieve W;
     batches_create := batches_create W;
     batches_retrieve := batches_retrieve W;
     files_content := files_content W;
     file_dump_json := file_dump_json W;
     batch_dump_json := batch_dump_json W;
     chat_completions_create := chat_completions_create W |}.


End Scenario.

(** ** Properties of runs *)

Module Run.
Import Py Sdk.

(** A computation only appends to the trace, and every action it
    appends satisfies [ok]. *)
Definition emits {A} (ok : event -> bool) (m : M A) : Prop :=
  forall tr, exists ev,
    snd (m tr) = (tr ++ ev)%list /\ forallb ok ev = true.

(** From a trace that satisfies [P], the computation leaves a trace
    that satisfies [Q], however it ends. *)
Definition hoare {A} (P : trace -> Prop) (m : M A) (Q : trace -> Prop)
  : Prop :=
  forall tr, P tr -> Q (snd (m tr)).

(** A property of traces that a computation never breaks. *)
Definition preserves {A} (P : trace -> Prop) (m : M A) : Prop :=
  hoare P m P.

(** The actions of each part of the batch driver. *)
Definition setup_event (e : event) : bool :=
  match e with Stderr _ | LogError _ _ => true | _ => false end.

Definition upload_event (e : event) : bool :=
  match e with
  | Stdout _ | Sleep _ | FilesCreate _ _ _ | FilesRetrieve _ _
  | BatchesCreate _ _ _ _ => true
  | _ => false
  end.

Definition poll_event (e : event) : bool :=
  match e with
  | Stdout _ | Sleep _ | BatchesRetrieve _ _ => true
  | _ => false
  end.

Definition fetch_event (e : event) : bool :=
  match e with Stdout _ | FilesContent _ _ => true | _ => false end.

(** A poll of the batch status that observed a terminal status. *)
Definition observed_terminal (e : event) : bool :=
  match e with
  | BatchesRetrieve _ (Ok b) =>
      tuple_in (batch_status b) Batch.terminal_statuses
  | _ => false
  end.

(** No poll of the batch status follows one that observed a terminal
    status. *)
Definition polls_stop_at_terminal (tr : trace) : Prop :=
  forall pre e post,
    tr = (pre ++ e :: post)%list ->
    observed_terminal e = true ->
    calls is_batches_retrieve post = 0.

(** The batch status has not been polled so far. *)
Definition no_poll (tr : trace) : Prop := calls is_batches_retrieve tr = 0.

(** No terminal batch status has been observed so far. *)
Definition none_terminal (tr : trace) : Prop :=
  existsb observed_terminal tr = false.

(** One of the three start-up steps of [main] fails: the logging
    set-up, the load of the configuration, or the authentication. *)
Definition setup_fails (W : World) (scope : string) : Prop :=
  (exists e, logging_basicConfig W (Some 40%Z) = Err e)
  \/ (exists e, load_dotenv W ".env" = Err e)
  \/ (exists e, DefaultAzureCredential W = Err e)
  \/ (exists cred e,
        DefaultAzureCredential W = Ok cred
        /\ get_bearer_token_provider W cred scope = Err e).

(** The three start-up steps succeed and yield [token_provider]. *)
Definition setup_succeeds (W : World) (scope : string)
    (token_provider : token_provider) : Prop :=
  logging_basicConfig W (Some 40%Z) = Ok tt
  /\ (exists loaded, load_dotenv W ".env" = Ok loaded)
  /\ (exists cred,
         DefaultAzureCredential W = Ok cred
         /\ get_bearer_token_provider W cred scope = Ok token_provider).

(** The shape of both [main] functions: the three start-up steps, then
    the rest with the token provider. *)
Definition main_shape (W : World) (scope : string)
    (rest : token_provider -> M unit) : M unit :=
  bind (configure_logging W "ERROR") (fun _ =>
  bind (try_except_Exception
          (bind (lift (load_dotenv W ".env")) (fun _ => ret tt))
          (fun e =>
             bind (logging_error "Failed to load environmental variables: "
                     (Exception e))
                  (fun _ => sys_exit 1%Z))) (fun _ =>
  bind (authenticate_with_service_principal W scope) rest)).

(** Tests on the text of a result file: a line break inside, no white
    space at the start, no white space at the end. *)
Fixpoint has_newline (s : string) : bool :=
  match s with
  | EmptyString => false
  | String c rest => Ascii.eqb c newline || has_newline rest
  end.

Definition starts_clean (s : string) : bool :=
  match s with
  | String c _ => negb (isspace c)
  | EmptyString => false
  end.

Fixpoint ends_clean (s : string) : bool :=
  match s with
  | EmptyString => false
  | String c EmptyString => negb (isspace c)
  | String _ rest => ends_clean rest
  end.

(** Text made of white space only, such as the line break that ends a
    file. *)
Fixpoint blank (s : string) : bool :=
  match s with
  | EmptyString => true
  | String c rest => isspace c && blank rest
  end.

(** The lines of a file joined by line breaks. *)
Definition join_lines (lines : list string) : string :=
  String.concat (String newline EmptyString) lines.

(** ** Further properties of runs *)

Definition is_files_create (e : event) : bool :=
  match e with FilesCreate _ _ _ => true | _ => false end.

(** What must have happened before a remote call for it to be in
    order: a poll of the file status names an uploaded file, a
    submission names a polled file and the fixed end point and window,
    a poll of the batch status names a submitted batch, and a retrieval
    names the file selected from a batch that was observed in a terminal
    status. *)
Definition justified (pre : trace) (e : event) : Prop :=
  match e with
  | FilesRetrieve id _ =>
      exists content f,
        In (FilesCreate content "batch" (Ok f)) pre /\ id = file_id f
  | BatchesCreate fid endpoint window _ =>
      endpoint = "/chat/completions" /\ window = "24h"
      /\ exists id f, In (FilesRetrieve id (Ok f)) pre /\ fid = file_id f
  | BatchesRetrieve id _ =>
      exists fid b,
        In (BatchesCreate fid "/chat/completions" "24h" (Ok b)) pre
        /\ id = batch_id b
  | FilesContent id _ =>
      exists bid b,
        In (BatchesRetrieve bid (Ok b)) pre
        /\ tuple_in (batch_status b) Batch.terminal_statuses = true
        /\ Batch.select_file_id b = Some id
  | _ => True
  end.

(** Every action of the trace is justified by the actions before it. *)
Definition causal (tr : trace) : Prop :=
  forall pre e post, tr = (pre ++ e :: post)%list -> justified pre e.

(** Actions that need no justification. *)
Definition free_event (e : event) : bool :=
  match e with
  | Stdout _ | Stderr _ | LogError _ _ | Sleep _ | FilesCreate _ _ _
  | ChatCreate _ _ => true
  | _ => false
  end.

(** The actions of the body of the [try] statement of the batch driver. *)
Definition body_event (e : event) : bool :=
  upload_event e || poll_event e || fetch_event e.

(** The line printed for one error record of a failed batch. *)
Definition error_line (error : BatchError) : string :=
  "Error code: " ++ str_of_opt (error_code error)
    ++ " Message " ++ str_of_opt (error_message error).


(** The sleeps of a run are thirty seconds for each poll of the file
    status, then five seconds for each poll of the batch status. *)
Definition paced (tr : trace) : Prop :=
  sleeps_of tr
  = (repeat 30%Z (calls is_files_retrieve tr)
       ++ repeat 5%Z (calls is_batches_retrieve tr))%list.

(** Actions that are neither a sleep nor a poll. *)
Definition still_event (e : event) : bool :=
  match e with
  | Sleep _ | FilesRetrieve _ _ | BatchesRetrieve _ _ => false
  | _ => true
  end.

End Run.

(** * Lemmas *)

Module Logic.
Import Py Sdk Sdk.Notations Run.
Local Open Scope list_scope.

Lemma calls_app kind (a b : trace) :
  calls kind (a ++ b) = calls kind a + calls kind b.
Proof. unfold calls. now rewrite filter_app, length_app. Qed.

Lemma calls_snoc kind (tr : trace) e :
  calls kind (tr ++ [e]) = calls kind tr + (if kind e then 1 else 0).
Proof. rewrite calls_app. unfold calls. simpl. now destruct (kind e). Qed.

(** *** The rules for [emits] *)

Section Emits.
Context (ok : event -> bool).

Lemma emits_ret {A} (a : A) : emits ok (ret a).
Proof. intros tr. exists []. simpl. now rewrite app_nil_r. Qed.

Lemma emits_raise {A} e : emits ok (@raise A e).
Proof. intros tr. exists []. simpl. now rewrite app_nil_r. Qed.

Lemma emits_out_of_fuel {A} : emits ok (@out_of_fuel A).
Proof. intros tr. exists []. simpl. now rewrite app_nil_r. Qed.

Lemma emits_emit e : ok e = true -> emits ok (emit e).
Proof. intros H tr. exists [e]. simpl. now rewrite H. Qed.

Lemma emits_bind {A B} (m : M A) (k : A -> M B) :
  emits ok m -> (forall a, emits ok (k a)) -> emits ok (bind m k).
Proof.
  intros Hm Hk tr. destruct (Hm tr) as (ev & E & F).
  unfold bind. destruct (m tr) as [[a|e|] tr1]; simpl in E; subst tr1.
  - destruct (Hk a (tr ++ ev)%list) as (ev' & E' & F').
    exists (ev ++ ev')%list. rewrite E', app_assoc, forallb_app, F, F'. auto.
  - exists ev. auto.
  - exists ev. auto.
Qed.

Lemma emits_lift {A} (r : result A) : emits ok (lift r).
Proof. destruct r; [apply emits_ret | apply emits_raise]. Qed.

Lemma emits_remote {A} (ev : result A -> event) r :
  ok (ev r) = true -> emits ok (remote ev r).
Proof.
  intros H. apply emits_bind; [now apply emits_emit | intros; apply emits_lift].
Qed.

Lemma emits_remote_nth {A} kind (ev : result A -> event) answer :
  (forall r, ok (ev r) = true) -> emits ok (Batch.remote_nth kind ev answer).
Proof. intros H tr. unfold Batch.remote_nth. now apply emits_remote. Qed.

Lemma emits_now W : emits ok (now W).
Proof. intros tr. exists []. simpl. now rewrite app_nil_r. Qed.

Lemma emits_read_local {A} name (v : option A) : emits ok (read_local name v).
Proof. destruct v; [apply emits_ret | apply emits_raise]. Qed.

Lemma emits_try_except {A} (m : M A) h :
  emits ok m -> (forall e, emits ok (h e)) -> emits ok (try_except m h).
Proof.
  intros Hm Hh tr. destruct (Hm tr) as (ev & E & F).
  unfold try_except. destruct (m tr) as [[a|e|] tr1]; simpl in E; subst tr1.
  - exists ev. auto.
  - destruct (Hh e (tr ++ ev)%list) as (ev' & E' & F').
    exists (ev ++ ev')%list. rewrite E', app_assoc, forallb_app, F, F'. auto.
  - exists ev. auto.
Qed.

Lemma emits_try_except_Exception {A} (m : M A) h :
  emits ok m -> (forall e, emits ok (h e)) ->
  emits ok (try_except_Exception m h).
Proof.
  intros Hm Hh tr. destruct (Hm tr) as (ev & E & F).
  unfold try_except_Exception.
  destruct (m tr) as [[a|[e|code]|] tr1]; simpl in E; subst tr1.
  - exists ev. auto.
  - destruct (Hh e (tr ++ ev)%list) as (ev' & E' & F').
    exists (ev ++ ev')%list. rewrite E', app_assoc, forallb_app, F, F'. auto.
  - exists ev. auto.
  - exists ev. auto.
Qed.

Lemma emits_for_each {A} (items : list A) body :
  (forall x, emits ok (body x)) -> emits ok (Batch.for_each items body).
Proof.
  intros H. induction items as [|x items IH]; simpl.
  - apply emits_ret.
  - apply emits_bind; auto.
Qed.

End Emits.

Lemma emits_weaken {A} (ok ok' : event -> bool) (m : M A) :
  (forall e, ok e = true -> ok' e = true) -> emits ok m -> emits ok' m.
Proof.
  intros Hw Hm tr. destruct (Hm tr) as (ev & E & F). exists ev. split; auto.
  rewrite forallb_forall in *. auto.
Qed.

(** *** The rules for [hoare] *)

Lemma hoare_bind {A B} P R Q (m : M A) (k : A -> M B) :
  hoare P m R -> (forall tr, R tr -> Q tr) -> (forall a, hoare R (k a) Q) ->
  hoare P (bind m k) Q.
Proof.
  intros Hm HRQ Hk tr HP. specialize (Hm tr HP). unfold bind.
  destruct (m tr) as [[a|e|] tr1]; simpl in *; auto. now apply Hk.
Qed.

Lemma hoare_try_except {A} P R Q (m : M A) h :
  hoare P m R -> (forall tr, R tr -> Q tr) -> (forall e, hoare R (h e) Q) ->
  hoare P (try_except m h) Q.
Proof.
  intros Hm HRQ Hh tr HP. specialize (Hm tr HP). unfold try_except.
  destruct (m tr) as [[a|e|] tr1]; simpl in *; auto. now apply Hh.
Qed.

(** A computation that emits only actions that keep [P] keeps [P]. *)
Lemma emits_preserves {A} ok (P : trace -> Prop) (m : M A) :
  (forall tr e, P tr -> ok e = true -> P (tr ++ [e])%list) ->
  emits ok m -> preserves P m.
Proof.
  intros Hstep Hm tr HP. destruct (Hm tr) as (ev & -> & F).
  revert tr HP. clear Hm. induction ev as [|e ev IH]; intros tr HP.
  - now rewrite app_nil_r.
  - simpl in F. apply andb_prop in F as [Fe F].
    replace (tr ++ e :: ev)%list with ((tr ++ [e]) ++ ev)%list
      by now rewrite <- app_assoc.
    apply IH; auto.
Qed.

Lemma emits_calls_zero {A} kind (m : M A) tr :
  emits (fun e => negb (kind e)) m ->
  calls kind (snd (m tr)) = calls kind tr.
Proof.
  intros Hm. destruct (Hm tr) as (ev & -> & F).
  rewrite calls_app. unfold calls at 2.
  replace (filter kind ev) with (@nil event); [simpl; lia|].
  induction ev as [|e ev IH]; simpl in *; [reflexivity|].
  apply andb_prop in F as [Fe F]. destruct (kind e); [discriminate|auto].
Qed.

Ltac emits_auto :=
  repeat match goal with
    | |- emits _ (ret _) => apply emits_ret
    | |- emits _ (raise _) => apply emits_raise
    | |- emits _ out_of_fuel => apply emits_out_of_fuel
    | |- emits _ (now _) => apply emits_now
    | |- emits _ (read_local _ _) => apply emits_read_local
    | |- emits _ (lift _) => apply emits_lift
    | |- emits _ (emit _) => apply emits_emit; reflexivity
    | |- emits _ (remote _ _) => apply emits_remote; reflexivity
    | |- emits _ (Batch.remote_nth _ _ _) =>
        apply emits_remote_nth; intros; reflexivity
    | |- emits _ (bind _ _) => apply emits_bind; [|intros]
    | |- emits _ (try_except _ _) => apply emits_try_except; [|intros]
    | |- emits _ (try_except_Exception _ _) =>
        apply emits_try_except_Exception; [|intros]
    | |- emits _ (Batch.for_each _ _) => apply emits_for_each; intros
    end.

End Logic.

(** ** [strip] and [split] on the text of a result file *)

Module StringFacts.
Import Py Run.

Lemma lstrip_clean s : starts_clean s = true -> lstrip s = s.
Proof.
  destruct s as [|c s]; simpl; [discriminate|].
  now destruct (isspace c).
Qed.

Lemma rstrip_blank w : blank w = true -> rstrip w = EmptyString.
Proof.
  induction w as [|c w IH]; simpl; [reflexivity|].
  intros H. apply andb_prop in H as [Hc Hw]. now rewrite (IH Hw), Hc.
Qed.

Lemma rstrip_cons c s :
  rstrip (String c s)
  = match rstrip s with
    | EmptyString => if isspace c then EmptyString else String c EmptyString
    | r => String c r
    end.
Proof. reflexivity. Qed.

Lemma rstrip_app_blank s w :
  ends_clean s = true -> blank w = true -> rstrip (s ++ w) = s.
Proof.
  intros Hs Hw. induction s as [|c s IH]; [discriminate|].
  destruct s as [|d s].
  - simpl in *. rewrite (rstrip_blank w Hw). now destruct (isspace c).
  - change (ends_clean (String d s) = true) in Hs.
    change (String c (String d s) ++ w) with (String c (String d s ++ w)).
    rewrite rstrip_cons, (IH Hs). reflexivity.
Qed.

Lemma starts_clean_app s t : starts_clean s = true -> starts_clean (s ++ t) = true.
Proof. now destruct s. Qed.

Lemma ends_clean_app s t :
  ends_clean t = true -> ends_clean (s ++ t) = true.
Proof.
  intros H. induction s as [|c s IH]; simpl; [exact H|].
  destruct (s ++ t) eqn:E; [|exact IH].
  destruct s; simpl in E; [|discriminate]. subst t. discriminate.
Qed.

Lemma split_no_sep s : has_newline s = false -> split newline s = [s].
Proof.
  induction s as [|c s IH]; simpl; [reflexivity|].
  intros H. apply orb_false_elim in H as [Hc Hs].
  now rewrite Hc, (IH Hs).
Qed.

Lemma split_line s rest :
  has_newline s = false ->
  split newline (s ++ String newline rest) = s :: split newline rest.
Proof.
  induction s as [|c s IH]; intros H.
  - simpl. reflexivity.
  - simpl in H. apply orb_false_elim in H as [Hc Hs].
    change (String c s ++ String newline rest)
      with (String c (s ++ String newline rest)).
    cbn [split]. rewrite Hc, (IH Hs). reflexivity.
Qed.

Lemma join_lines_cons l ls :
  ls <> [] -> join_lines (l :: ls) = l ++ String newline (join_lines ls).
Proof. destruct ls; [congruence|reflexivity]. Qed.

(** Splitting the joined lines gives the lines back. *)
Lemma split_join_lines lines :
  lines <> [] ->
  Forall (fun l => has_newline l = false) lines ->
  split newline (join_lines lines) = lines.
Proof.
  induction lines as [|l lines IH]; [congruence|]. intros _ F.
  inversion F as [|? ? Hl Hrest]; subst.
  destruct lines as [|l' lines].
  - simpl. now apply split_no_sep.
  - rewrite join_lines_cons by discriminate.
    rewrite split_line by exact Hl. now rewrite IH.
Qed.

Lemma join_lines_starts_clean lines :
  starts_clean (hd EmptyString lines) = true ->
  starts_clean (join_lines lines) = true.
Proof.
  destruct lines as [|l lines]; [discriminate|]. simpl hd. intros H.
  destruct lines; [exact H|].
  rewrite join_lines_cons by discriminate. now apply starts_clean_app.
Qed.

Lemma join_lines_ends_clean lines :
  ends_clean (last lines EmptyString) = true ->
  ends_clean (join_lines lines) = true.
Proof.
  induction lines as [|l lines IH]; [discriminate|].
  destruct lines as [|l' lines]; [now simpl|]. intros H.
  rewrite join_lines_cons by discriminate.
  apply ends_clean_app.
  assert (E : ends_clean (join_lines (l' :: lines)) = true)
    by (apply IH; exact H).
  simpl. destruct (join_lines (l' :: lines)); [discriminate|exact E].
Qed.

Lemma lstrip_blank_app w s :
  blank w = true -> starts_clean s = true -> lstrip (w ++ s) = s.
Proof.
  intros Hw Hs. induction w as [|c w IH]; simpl.
  - now apply lstrip_clean.
  - simpl in Hw. apply andb_prop in Hw as [Hc Hw]. rewrite Hc. now apply IH.
Qed.

(** The lines the program iterates over are the records of the file:
    the white space around the records is stripped, and the split at
    the line breaks gives the lines back. *)
Lemma records_of_text leader lines trailer :
  Forall (fun l => has_newline l = false) lines ->
  starts_clean (hd EmptyString lines) = true ->
  ends_clean (last lines EmptyString) = true ->
  blank leader = true ->
  blank trailer = true ->
  split newline (strip (leader ++ join_lines lines ++ trailer)) = lines.
Proof.
  intros F Hs He Hl Ht.
  assert (Hne : lines <> []) by (destruct lines; [discriminate|congruence]).
  unfold strip. rewrite lstrip_blank_app; auto.
  - rewrite rstrip_app_blank; auto.
    + now apply split_join_lines.
    + now apply join_lines_ends_clean.
  - apply starts_clean_app. now apply join_lines_starts_clean.
Qed.

End StringFacts.

(** ** The start-up steps shared by the two programs *)

Module SetupFacts.
Import Py Sdk Sdk.Notations Run Logic.
Local Open Scope list_scope.

Section Setup.
Variable W : World.
Variable scope : string.
Variable rest : token_provider -> M unit.

Lemma after_setup tp tr :
  setup_succeeds W scope tp -> main_shape W scope rest tr = rest tp tr.
Proof.
  intros (Hlog & (loaded & Hdot) & (cred & Hcred & Htp)).
  unfold main_shape, configure_logging,
    authenticate_with_service_principal.
  unfold bind at 1, try_except_Exception at 1, lift at 1.
  replace (logging_getattr (upper "ERROR")) with (Some 40%Z) by reflexivity.
  rewrite Hlog. cbn [ret].
  unfold bind at 1, try_except_Exception at 1, bind at 1, lift at 1.
  rewrite Hdot. cbn [ret].
  unfold bind at 1, try_except at 1, bind at 1, lift at 1.
  rewrite Hcred. cbn [ret]. unfold bind at 1, lift at 1. rewrite Htp.
  reflexivity.
Qed.

Lemma setup_failure tr :
  setup_fails W scope ->
  exists ev,
    setup_event ev = true
    /\ main_shape W scope rest tr = (Raise (SystemExit 1), tr ++ [ev]).
Proof.
  unfold main_shape, configure_logging,
    authenticate_with_service_principal.
  unfold bind at 1, try_except_Exception at 1, lift at 1.
  replace (logging_getattr (upper "ERROR")) with (Some 40%Z) by reflexivity.
  intros H.
  destruct (logging_basicConfig W (Some 40%Z)) as [[]|e0] eqn:Hlog.
  2: { eexists. split; [|reflexivity]. reflexivity. }
  cbn [ret].
  unfold bind at 1, try_except_Exception at 1, bind at 1, lift at 1.
  destruct (load_dotenv W ".env") as [loaded|e1] eqn:Hdot.
  2: { eexists. split; [|reflexivity]. reflexivity. }
  cbn [ret].
  unfold bind at 1, try_except at 1, bind at 1, lift at 1.
  destruct (DefaultAzureCredential W) as [cred|e2] eqn:Hcred.
  2: { eexists. split; [|reflexivity]. reflexivity. }
  cbn [ret]. unfold bind at 1, lift at 1.
  destruct (get_bearer_token_provider W cred scope) as [tp|e3] eqn:Htp.
  2: { eexists. split; [|reflexivity]. reflexivity. }
  exfalso.
  destruct H as [(e & H)|[(e & H)|[(e & H)|(c & e & Hc & H)]]];
    try congruence.
Qed.

Lemma setup_decided :
  setup_fails W scope \/ exists tp, setup_succeeds W scope tp.
Proof.
  unfold setup_fails, setup_succeeds.
  destruct (logging_basicConfig W (Some 40%Z)) as [[]|e0]; [|eauto].
  destruct (load_dotenv W ".env") as [loaded|e1]; [|eauto].
  destruct (DefaultAzureCredential W) as [cred|e2]; [|eauto 6].
  destruct (get_bearer_token_provider W cred scope) as [tp|e3] eqn:E;
    [|eauto 10].
  right. exists tp. eauto 10.
Qed.

End Setup.
End SetupFacts.

(** ** The batch driver *)

Module BatchFacts.
Import Py Sdk Sdk.Notations Run Logic Batch StringFacts.
Local Open Scope list_scope.

Section Parts.
Variable W : World.
Variable J : JsonLib.

Lemma configure_logging_emits level :
  emits setup_event (configure_logging W level).
Proof. unfold configure_logging, sys_exit. emits_auto. Qed.

Lemma authenticate_emits scope :
  emits setup_event (authenticate_with_service_principal W scope).
Proof.
  unfold authenticate_with_service_principal, sys_exit, logging_error.
  emits_auto.
Qed.

Lemma file_loop_emits fuel : forall L, emits upload_event (file_loop W fuel L).
Proof.
  induction fuel as [|fuel IH]; intros L; cbn [file_loop];
    destruct (negb (str_in (v_status L) "processed"));
    unfold print, time_sleep; emits_auto.
  apply IH.
Qed.

Lemma upload_and_wait_emits fuel tp :
  emits upload_event (upload_and_wait W fuel tp).
Proof.
  unfold upload_and_wait, print. emits_auto. apply file_loop_emits.
Qed.

Lemma print_errors_emits b : emits is_stdout (print_errors b).
Proof.
  unfold print_errors, print.
  destruct (batch_errors b) as [[[data|]]|]; cbn [errors_data]; emits_auto.
Qed.

Lemma batch_loop_emits fuel : forall L, emits poll_event (batch_loop W fuel L).
Proof.
  induction fuel as [|fuel IH]; intros L; cbn [batch_loop];
    destruct (negb (tuple_in (v_status L) terminal_statuses));
    unfold print, time_sleep; emits_auto.
  - match goal with |- context [String.eqb ?a ?b] => destruct (String.eqb a b) end;
      [ apply emits_weaken with (ok := is_stdout);
        [now intros [] | apply print_errors_emits]
      | emits_auto].
  - apply IH.
Qed.

Lemma fetch_output_emits L : emits fetch_event (fetch_output W J L).
Proof.
  unfold fetch_output, print_record, print. emits_auto.
  match goal with |- context [truthy ?x] => destruct (truthy x) end;
    emits_auto.
Qed.


(** *** The polls of the batch status *)

Lemma none_terminal_snoc tr e :
  none_terminal tr -> observed_terminal e = false -> none_terminal (tr ++ [e]).
Proof.
  unfold none_terminal. intros H He. rewrite existsb_app, H. simpl.
  now rewrite He.
Qed.

Lemma none_terminal_stop tr : none_terminal tr -> polls_stop_at_terminal tr.
Proof.
  intros H pre e post -> He. unfold none_terminal in H.
  rewrite existsb_app in H. simpl in H. rewrite He in H.
  now rewrite orb_true_r in H.
Qed.

Lemma stop_snoc tr e :
  polls_stop_at_terminal tr ->
  (is_batches_retrieve e = true -> none_terminal tr) ->
  polls_stop_at_terminal (tr ++ [e]).
Proof.
  intros H He pre x post E Hx.
  destruct post as [|p post0] using rev_ind; [reflexivity|].
  clear IHpost0. rename post0 into post', p into y.
  change (pre ++ x :: post' ++ [y]) with (pre ++ (x :: post') ++ [y]) in E.
  rewrite app_assoc in E. apply app_inj_tail in E as [-> <-].
  rewrite calls_snoc, (H pre x post' eq_refl Hx).
  destruct (is_batches_retrieve e) eqn:P; [|reflexivity].
  specialize (He eq_refl). unfold none_terminal in He.
  rewrite existsb_app in He. simpl in He. rewrite Hx in He.
  now rewrite orb_true_r in He.
Qed.

Lemma stop_snoc_other tr e :
  polls_stop_at_terminal tr -> is_batches_retrieve e = false ->
  polls_stop_at_terminal (tr ++ [e]).
Proof. intros H He. apply stop_snoc; auto. congruence. Qed.

Lemma batch_loop_terminal fuel L tr :
  tuple_in (v_status L) terminal_statuses = true ->
  batch_loop W fuel L tr = (Ret L, tr).
Proof. intros H. destruct fuel; cbn [batch_loop]; now rewrite H. Qed.

Lemma batch_loop_polls fuel : forall L,
  hoare none_terminal (batch_loop W fuel L) polls_stop_at_terminal.
Proof.
  induction fuel as [|fuel IH]; intros L tr Htr; cbn [batch_loop];
    destruct (tuple_in (v_status L) terminal_statuses) eqn:T; simpl;
    try now apply none_terminal_stop.
  unfold bind, now, read_local, print, time_sleep, emit, remote_nth, remote.
  destruct (v_batch_id L) as [id|]; simpl; [|now apply none_terminal_stop].
  set (tr1 := (tr ++ [Stdout _]) ++ [Sleep _]).
  assert (H1 : none_terminal tr1) by (now repeat apply none_terminal_snoc).
  destruct (batches_retrieve W (calls is_batches_retrieve tr1) id) as [b|e];
    simpl.
  2: { apply none_terminal_stop. now apply none_terminal_snoc. }
  set (tr2 := (tr1 ++ [BatchesRetrieve id (Ok b)]) ++ [Stdout _]).
  destruct (tuple_in (batch_status b) terminal_statuses) eqn:Tb.
  - assert (H2 : polls_stop_at_terminal tr2).
    { apply stop_snoc_other; [|reflexivity].
      apply stop_snoc; [now apply none_terminal_stop | auto]. }
    assert (H3 : polls_stop_at_terminal
                   (snd ((if String.eqb (batch_status b) "failed"
                          then print_errors b else ret tt) tr2))).
    { apply (emits_preserves is_stdout polls_stop_at_terminal); auto.
      - intros t e Ht He. apply stop_snoc_other; auto. now destruct e.
      - destruct (String.eqb (batch_status b) "failed");
          [apply print_errors_emits | apply emits_ret]. }
    destruct ((if String.eqb (batch_status b) "failed"
               then print_errors b else ret tt) tr2) as [[u|e|] tr3];
      simpl in *; auto.
    now rewrite batch_loop_terminal.
  - assert (F : String.eqb (batch_status b) "failed" = false).
    { destruct (String.eqb_spec (batch_status b) "failed") as [E|]; auto.
      rewrite E in Tb. discriminate. }
    rewrite F. simpl. apply IH.
    apply none_terminal_snoc; [|reflexivity].
    apply none_terminal_snoc; [assumption|]. simpl. exact Tb.
Qed.


Lemma print_errors_ends b tr : fst (print_errors b tr) <> OutOfFuel.
Proof.
  unfold print_errors.
  destruct (batch_errors b) as [[[data|]]|]; cbn [errors_data];
    try discriminate.
  revert tr. induction data as [|x data IH]; intros tr; simpl;
    [discriminate|]. unfold bind, print, emit. simpl. apply IH.
Qed.

Lemma batch_loop_finishes k : forall L tr id fuel,
  v_batch_id L = Some id ->
  tuple_in (v_status L) terminal_statuses = false ->
  (forall i, i < k -> exists b,
     batches_retrieve W (calls is_batches_retrieve tr + i) id = Ok b
     /\ tuple_in (batch_status b) terminal_statuses = false) ->
  (exists b,
     batches_retrieve W (calls is_batches_retrieve tr + k) id = Ok b
     /\ tuple_in (batch_status b) terminal_statuses = true) ->
  k < fuel ->
  fst (batch_loop W fuel L tr) <> OutOfFuel
  /\ calls is_batches_retrieve (snd (batch_loop W fuel L tr))
     = calls is_batches_retrieve tr + (k + 1).
Proof.
  induction k as [|k IH]; intros L tr id fuel Hid T Hearly Hlast Hfuel;
    (destruct fuel as [|fuel]; [lia|]); cbn [batch_loop]; rewrite T; simpl;
    unfold bind, now, read_local, print, time_sleep, emit, remote_nth, remote;
    rewrite Hid; simpl;
    set (tr1 := (tr ++ [Stdout _]) ++ [Sleep _]);
    assert (C1 : calls is_batches_retrieve tr1 = calls is_batches_retrieve tr)
      by (unfold tr1; rewrite !calls_snoc; simpl; lia);
    rewrite C1.
  - destruct Hlast as (b & Eb & Tb). rewrite Nat.add_0_r in Eb.
    rewrite Eb. simpl.
    set (tr2 := (tr1 ++ [BatchesRetrieve id (Ok b)]) ++ [Stdout _]).
    assert (C2 : calls is_batches_retrieve tr2
                 = calls is_batches_retrieve tr + 1)
      by (unfold tr2; rewrite !calls_snoc, C1; simpl; lia).
    pose proof (emits_calls_zero is_batches_retrieve
                  (if String.eqb (batch_status b) "failed"
                   then print_errors b else ret tt) tr2) as C3.
    destruct ((if String.eqb (batch_status b) "failed"
               then print_errors b else ret tt) tr2) as [[u|e|] tr3] eqn:R;
      simpl in *.
    + rewrite batch_loop_terminal by exact Tb. simpl. split; [discriminate|].
      rewrite C3, C2; [reflexivity|].
      destruct (String.eqb (batch_status b) "failed");
        [ apply emits_weaken with (ok := is_stdout);
          [now intros [] | apply print_errors_emits]
        | apply emits_ret ].
    + split; [discriminate|]. rewrite C3, C2; [reflexivity|].
      destruct (String.eqb (batch_status b) "failed");
        [ apply emits_weaken with (ok := is_stdout);
          [now intros [] | apply print_errors_emits]
        | apply emits_ret ].
    + exfalso. destruct (String.eqb (batch_status b) "failed").
      * apply (print_errors_ends b tr2). now rewrite R.
      * discriminate.
  - destruct (Hearly 0 ltac:(lia)) as (b & Eb & Tb).
    rewrite Nat.add_0_r in Eb. rewrite Eb. simpl.
    assert (F : String.eqb (batch_status b) "failed" = false).
    { destruct (String.eqb_spec (batch_status b) "failed") as [E|]; auto.
      rewrite E in Tb. discriminate. }
    rewrite F. simpl.
    set (tr2 := (tr1 ++ [BatchesRetrieve id (Ok b)]) ++ [Stdout _]).
    assert (C2 : calls is_batches_retrieve tr2
                 = calls is_batches_retrieve tr + 1)
      by (unfold tr2; rewrite !calls_snoc, C1; simpl; lia).
    match goal with
    | |- context [batch_loop W fuel ?L' tr2] =>
        destruct (IH L' tr2 id fuel) as [N C]
    end; simpl; auto; try lia.
    + intros i Hi. rewrite C2.
      replace (calls is_batches_retrieve tr + 1 + i)
        with (calls is_batches_retrieve tr + S i) by lia.
      apply Hearly. lia.
    + rewrite C2.
      replace (calls is_batches_retrieve tr + 1 + k)
        with (calls is_batches_retrieve tr + S k) by lia.
      exact Hlast.
    + split; [exact N|]. rewrite C, C2. lia.
Qed.

(** *** The whole run *)

Lemma no_poll_none_terminal tr : no_poll tr -> none_terminal tr.
Proof.
  unfold no_poll, none_terminal, calls. induction tr as [|e tr IH]; simpl; auto.
  destruct e; simpl; auto. discriminate.
Qed.

Lemma quiet_no_poll {A} ok (m : M A) :
  (forall e, ok e = true -> is_batches_retrieve e = false) ->
  emits ok m -> preserves no_poll m.
Proof.
  intros Hok Hm. apply (emits_preserves ok); auto.
  intros tr e Htr He. unfold no_poll in *. rewrite calls_snoc, Htr.
  now rewrite (Hok e He).
Qed.

Lemma quiet_polls_stop {A} ok (m : M A) :
  (forall e, ok e = true -> is_batches_retrieve e = false) ->
  emits ok m -> preserves polls_stop_at_terminal m.
Proof.
  intros Hok Hm. apply (emits_preserves ok); auto.
  intros tr e Htr He. apply stop_snoc_other; auto.
Qed.

Lemma main_polls_stop fuel :
  hoare no_poll (main W J fuel) polls_stop_at_terminal.
Proof.
  assert (S : forall e, setup_event e = true -> is_batches_retrieve e = false)
    by now intros [].
  assert (U : forall e, upload_event e = true -> is_batches_retrieve e = false)
    by now intros [].
  assert (F : forall e, fetch_event e = true -> is_batches_retrieve e = false)
    by now intros [].
  assert (N : forall tr, no_poll tr -> polls_stop_at_terminal tr)
    by (intros; now apply none_terminal_stop, no_poll_none_terminal).
  unfold main.
  apply hoare_bind with (R := no_poll); auto.
  { apply (quiet_no_poll setup_event); auto. apply configure_logging_emits. }
  intros _. apply hoare_bind with (R := no_poll); auto.
  { apply (quiet_no_poll setup_event); auto.
    unfold sys_exit, logging_error. emits_auto. }
  intros _. apply hoare_bind with (R := no_poll); auto.
  { apply (quiet_no_poll setup_event); auto. apply authenticate_emits. }
  intros tp. apply hoare_try_except with (R := polls_stop_at_terminal); auto.
  - unfold batch_chat_completion.
    apply hoare_bind with (R := no_poll); auto.
    { apply (quiet_no_poll upload_event); auto. apply upload_and_wait_emits. }
    intros L. apply hoare_bind with (R := polls_stop_at_terminal); auto.
    { intros tr Htr. apply batch_loop_polls.
      now apply no_poll_none_terminal. }
    intros L'. apply (quiet_polls_stop fetch_event); auto.
    apply fetch_output_emits.
  - intros e. apply (quiet_polls_stop setup_event); auto.
    unfold logging_error. emits_auto.
Qed.


(** C3.  In every run of [main], whatever the service answers, no poll
    of the batch status follows a poll that observed one of
    [completed], [failed], [cancelled].  And when the polls before the
    k-th one succeed with other statuses and the k-th one observes a
    terminal status, the loop ends within k+1 iterations, having polled
    exactly k+1 times. *)
Theorem batch_polling_stops_at_terminal_status :
  (forall fuel, polls_stop_at_terminal (snd (main W J fuel [])))
  /\ (forall k L tr id fuel,
        v_batch_id L = Some id ->
        tuple_in (v_status L) terminal_statuses = false ->
        (forall i, i < k -> exists b,
           batches_retrieve W (calls is_batches_retrieve tr + i) id = Ok b
           /\ tuple_in (batch_status b) terminal_statuses = false) ->
        (exists b,
           batches_retrieve W (calls is_batches_retrieve tr + k) id = Ok b
           /\ tuple_in (batch_status b) terminal_statuses = true) ->
        k < fuel ->
        fst (batch_loop W fuel L tr) <> OutOfFuel
        /\ calls is_batches_retrieve (snd (batch_loop W fuel L tr))
           = calls is_batches_retrieve tr + (k + 1)).
Proof.
  split.
  - intros fuel. now apply main_polls_stop.
  - intros k L tr id fuel. apply batch_loop_finishes.
Qed.

(** *** Loops that never end *)

Lemma sleeps_of_app (a b : trace) :
  sleeps_of (a ++ b) = sleeps_of a ++ sleeps_of b.
Proof.
  induction a as [|e a IH]; simpl; [reflexivity|].
  destruct e; simpl; now rewrite ?IH.
Qed.

(** While the service keeps answering with a status outside the tuple,
    the second loop uses up any number of iterations, sleeping five
    seconds in each. *)
Lemma batch_loop_runs_forever id :
  (forall n, exists b,
     batches_retrieve W n id = Ok b
     /\ tuple_in (batch_status b) terminal_statuses = false) ->
  forall fuel L tr,
    v_batch_id L = Some id ->
    tuple_in (v_status L) terminal_statuses = false ->
    fst (batch_loop W fuel L tr) = OutOfFuel
    /\ sleeps_of (snd (batch_loop W fuel L tr))
       = sleeps_of tr ++ repeat 5%Z fuel.
Proof.
  intros Hw. induction fuel as [|fuel IH]; intros L tr Hid T;
    cbn [batch_loop]; rewrite T; simpl.
  - now rewrite app_nil_r.
  - unfold bind, now, read_local, print, time_sleep, emit, remote_nth, remote.
    rewrite Hid. simpl.
    set (tr1 := (tr ++ [Stdout _]) ++ [Sleep _]).
    destruct (Hw (calls is_batches_retrieve tr1)) as (b & -> & Tb). simpl.
    assert (F : String.eqb (batch_status b) "failed" = false).
    { destruct (String.eqb_spec (batch_status b) "failed") as [E|]; auto.
      rewrite E in Tb. discriminate. }
    rewrite F. simpl.
    match goal with
    | |- context [batch_loop W fuel ?L' ?t] =>
        destruct (IH L' t) as [O S]; auto; rewrite O, S
    end.
    split; [reflexivity|]. unfold tr1. rewrite !sleeps_of_app. simpl.
    rewrite !app_nil_r, <- app_assoc. reflexivity.
Qed.

(** While the file status is never a substring of ["processed"] and the
    submissions succeed, the first loop uses up any number of
    iterations, sleeping thirty seconds in each. *)
Lemma file_loop_runs_forever :
  (forall n id, exists f,
     files_retrieve W n id = Ok f
     /\ str_in (file_status f) "processed" = false) ->
  (forall n fid, exists b,
     batches_create W n fid "/chat/completions" "24h" = Ok b) ->
  forall fuel L tr,
    str_in (v_status L) "processed" = false ->
    fst (file_loop W fuel L tr) = OutOfFuel
    /\ sleeps_of (snd (file_loop W fuel L tr))
       = sleeps_of tr ++ repeat 30%Z fuel.
Proof.
  intros Hf Hb. induction fuel as [|fuel IH]; intros L tr T;
    cbn [file_loop]; rewrite T; simpl.
  - now rewrite app_nil_r.
  - unfold bind, now, print, time_sleep, emit, remote_nth, remote. simpl.
    set (tr1 := (tr ++ [Stdout _]) ++ [Sleep _]).
    destruct (Hf (calls is_files_retrieve tr1) (v_file_id L))
      as (f & -> & Tf). simpl.
    set (tr2 := (tr1 ++ [FilesRetrieve _ _]) ++ [Stdout _]).
    destruct (Hb (calls is_batches_create tr2) (file_id f)) as (b & ->).
    simpl.
    match goal with
    | |- context [file_loop W fuel ?L' ?t] =>
        destruct (IH L' t) as [O S]; auto; rewrite O, S
    end.
    split; [reflexivity|]. unfold tr2, tr1. rewrite !sleeps_of_app. simpl.
    rewrite !app_nil_r, <- app_assoc. reflexivity.
Qed.

Lemma file_loop_done fuel L tr :
  str_in (v_status L) "processed" = true ->
  file_loop W fuel L tr = (Ret L, tr).
Proof. intros H. destruct fuel; cbn [file_loop]; now rewrite H. Qed.

(** *** The start-up steps and the top-level handler *)

Lemma main_after_setup fuel tp tr :
  setup_succeeds W scope tp ->
  main W J fuel tr
  = try_except (batch_chat_completion W J fuel tp)
      (fun e => logging_error "Failed batch chat completion: " e) tr.
Proof. apply (SetupFacts.after_setup W scope). Qed.

Lemma main_setup_fails fuel tr :
  setup_fails W scope ->
  exists ev,
    setup_event ev = true
    /\ main W J fuel tr = (Raise (SystemExit 1), tr ++ [ev]).
Proof. apply (SetupFacts.setup_failure W scope). Qed.

(** C4.  The process exits with status 1 exactly when the logging
    set-up, the load of the configuration or the authentication fails.
    When the three succeed, an exception raised by the sequence of
    upload, polls, submission and retrieval is caught by the handler of
    [main], logged, and [main] returns: the exit status is 0. *)
Theorem exit_status_of_batch_driver (fuel : nat) :
  (exit_code (fst (main W J fuel [])) = Some 1%Z <-> setup_fails W scope)
  /\ (forall tp e tr,
        setup_succeeds W scope tp ->
        batch_chat_completion W J fuel tp [] = (Raise e, tr) ->
        main W J fuel []
        = (Ret tt, tr ++ [LogError "Failed batch chat completion: " e])
        /\ exit_code (fst (main W J fuel [])) = Some 0%Z).
Proof.
  split.
  - split.
    + intros H.
      destruct (SetupFacts.setup_decided W scope) as [F|(tp & S)];
        [exact F|].
      rewrite (main_after_setup fuel tp [] S) in H. unfold try_except in H.
      destruct (batch_chat_completion W J fuel tp []) as [[u|e|] tr];
        simpl in H; discriminate.
    + intros F. destruct (main_setup_fails fuel [] F) as (ev & _ & ->).
      reflexivity.
  - intros tp e tr S B. rewrite (main_after_setup fuel tp [] S).
    unfold try_except. rewrite B. split; reflexivity.
Qed.

(** *** The first loop *)

Lemma emits_calls_mono {A} ok kind (m : M A) tr :
  emits ok m -> calls kind tr <= calls kind (snd (m tr)).
Proof. intros Hm. destruct (Hm tr) as (ev & -> & _). rewrite calls_app. lia. Qed.

Lemma file_loop_binds fuel : forall L tr L' tr',
  file_loop W fuel L tr = (Ret L', tr') ->
  (L' = L /\ tr' = tr /\ str_in (v_status L) "processed" = true)
  \/ (exists b fid,
        v_batch_response L' = Some b
        /\ v_batch_id L' = Some (batch_id b)
        /\ In (BatchesCreate fid "/chat/completions" "24h" (Ok b)) tr'
        /\ calls is_batches_create tr < calls is_batches_create tr').
Proof.
  induction fuel as [|fuel IH]; intros L tr L' tr'; cbn [file_loop];
    destruct (str_in (v_status L) "processed") eqn:T; simpl;
    try (intros [= <- <-]; now left); try discriminate.
  unfold bind, now, print, time_sleep, emit, remote_nth, remote. simpl.
  set (tr1 := ((tr ++ [Stdout _]) ++ [Sleep _])).
  destruct (files_retrieve W (calls is_files_retrieve tr1) (v_file_id L))
    as [file|e]; simpl; [|discriminate].
  set (tr2 := ((tr1 ++ [FilesRetrieve _ _]) ++ [Stdout _])).
  destruct (batches_create W (calls is_batches_create tr2) (file_id file)
              "/chat/completions" "24h") as [b|e]; simpl; [|discriminate].
  set (tr3 := ((tr2 ++ [BatchesCreate _ _ _ _]) ++ [Stdout _])).
  assert (C : calls is_batches_create tr3 = calls is_batches_create tr + 1)
    by (unfold tr3, tr2, tr1; rewrite !calls_snoc; simpl; lia).
  intros R. right. apply IH in R as [(-> & -> & _)|(b' & fid & B1 & B2 & I & N)].
  - exists b, (file_id file). simpl. repeat split; auto; [|lia].
    unfold tr3. rewrite in_app_iff. left. rewrite in_app_iff. right.
    now left.
  - exists b', fid. repeat split; auto. lia.
Qed.

(** Whenever the first loop is left normally, it has submitted as many
    batch jobs as it has polled the file status. *)
Lemma one_submission_per_poll fuel : forall L tr L' tr',
  file_loop W fuel L tr = (Ret L', tr') ->
  calls is_batches_create tr' + calls is_files_retrieve tr
  = calls is_batches_create tr + calls is_files_retrieve tr'.
Proof.
  induction fuel as [|fuel IH]; intros L tr L' tr'; cbn [file_loop];
    destruct (str_in (v_status L) "processed") eqn:T; simpl;
    try (intros [= <- <-]; lia); try discriminate.
  unfold bind, now, print, time_sleep, emit, remote_nth, remote. simpl.
  set (tr1 := ((tr ++ [Stdout _]) ++ [Sleep _])).
  destruct (files_retrieve W (calls is_files_retrieve tr1) (v_file_id L))
    as [file|e]; simpl; [|discriminate].
  set (tr2 := ((tr1 ++ [FilesRetrieve _ _]) ++ [Stdout _])).
  destruct (batches_create W (calls is_batches_create tr2) (file_id file)
              "/chat/completions" "24h") as [b|e]; simpl; [|discriminate].
  set (tr3 := ((tr2 ++ [BatchesCreate _ _ _ _]) ++ [Stdout _])).
  intros R. apply IH in R. unfold tr3, tr2, tr1 in R.
  rewrite !calls_snoc in R. simpl in R. lia.
Qed.

Lemma file_loop_first_poll fuel L tr :
  str_in (v_status L) "processed" = false ->
  exists t r rest,
    snd (file_loop W (S fuel) L tr)
    = tr ++ [Stdout t; Sleep 30; FilesRetrieve (v_file_id L) r] ++ rest.
Proof.
  intros T. cbn [file_loop]. rewrite T. cbn [negb].
  unfold bind, now, print, time_sleep, emit, remote_nth, remote. simpl.
  set (tr1 := ((tr ++ [Stdout _]) ++ [Sleep _])).
  destruct (files_retrieve W (calls is_files_retrieve tr1) (v_file_id L))
    as [file|e] eqn:R; simpl.
  2: { do 2 eexists. exists []. unfold tr1. now rewrite <- !app_assoc. }
  set (tr2 := ((tr1 ++ [FilesRetrieve _ _]) ++ [Stdout _])).
  destruct (batches_create W (calls is_batches_create tr2) (file_id file)
              "/chat/completions" "24h") as [b|e]; simpl.
  2: { do 3 eexists. unfold tr2, tr1. rewrite <- !app_assoc. simpl.
       reflexivity. }
  match goal with
  | |- context [file_loop W fuel ?L' ?t] =>
      destruct (file_loop_emits fuel L' t) as (ev & -> & _)
  end.
  do 3 eexists. unfold tr2, tr1. rewrite <- !app_assoc. simpl. reflexivity.
Qed.

(** C9.  The test of the first loop fails on the initial status
    ["pending"], so the loop makes at least one poll of the file status;
    and whenever the first loop is left normally, a batch job has been
    submitted and [batch_id] is bound to its identifier. *)
Theorem first_loop_runs_and_binds_batch_id :
  str_in "pending" "processed" = false
  /\ (forall fuel L tr,
        v_status L = "pending" ->
        calls is_files_retrieve tr
        < calls is_files_retrieve (snd (file_loop W (S fuel) L tr)))
  /\ (forall fuel tp tr L tr',
        upload_and_wait W fuel tp tr = (Ret L, tr') ->
        exists b fid,
          v_batch_response L = Some b
          /\ v_batch_id L = Some (batch_id b)
          /\ In (BatchesCreate fid "/chat/completions" "24h" (Ok b)) tr'
          /\ calls is_batches_create tr < calls is_batches_create tr').
Proof.
  split; [reflexivity|]. split.
  - intros fuel L tr S.
    destruct (file_loop_first_poll fuel L tr) as (t & r & rest & ->).
    { now rewrite S. }
    rewrite !calls_app. simpl. lia.
  - intros fuel tp tr L tr'. unfold upload_and_wait.
    unfold bind, lift, remote, print, emit.
    destruct (AzureOpenAI W _ _ tp) as [c|e]; simpl; [|discriminate].
    destruct (open_rb W "sample.jsonl") as [content|e]; simpl;
      [|discriminate].
    destruct (files_create W content "batch") as [file|e]; simpl;
      [|discriminate].
    intros R. apply file_loop_binds in R as [(_ & _ & T)|(b & fid & H)].
    + discriminate.
    + exists b, fid. destruct H as (B1 & B2 & I & N). repeat split; auto.
      rewrite !calls_snoc in N. simpl in N. lia.
Qed.


(** *** The retrieval of the result file *)

Lemma fetch_output_selected L tr b id :
  v_batch_response L = Some b ->
  select_file_id b = Some id ->
  id <> EmptyString ->
  fetch_output W J L tr
  = (text <- remote (FilesContent id) (files_content W id) ;;
     for_each (split newline (strip text)) (print_record J)) tr.
Proof.
  intros B S N. unfold fetch_output. rewrite B. unfold read_local.
  unfold bind at 1, ret at 1. rewrite S. simpl.
  destruct (String.eqb_spec id EmptyString) as [E|_]; [contradiction|]. reflexivity.
Qed.

(** C10.  When the start-up succeeds, both loops are left normally and
    the last batch status carries neither an output-file id nor an
    error-file id, [main] returns with the trace as the second loop left
    it: no file content is retrieved, nothing more is printed, and the
    exit status is 0. *)
Theorem no_file_id_means_no_retrieval (fuel : nat) :
  forall tp L0 tr0 L tr b,
    setup_succeeds W scope tp ->
    upload_and_wait W fuel tp [] = (Ret L0, tr0) ->
    wait_for_batch W fuel L0 tr0 = (Ret L, tr) ->
    v_batch_response L = Some b ->
    output_file_id b = None ->
    error_file_id b = None ->
    main W J fuel [] = (Ret tt, tr)
    /\ exit_code (fst (main W J fuel [])) = Some 0%Z
    /\ calls is_files_content tr = 0.
Proof.
  intros tp L0 tr0 L tr b S U Wt B O E.
  assert (M : main W J fuel [] = (Ret tt, tr)).
  { rewrite (main_after_setup fuel tp [] S).
    unfold try_except, batch_chat_completion. unfold bind at 1. rewrite U.
    unfold bind at 1. rewrite Wt. unfold fetch_output, read_local.
    rewrite B. unfold bind, ret, select_file_id. now rewrite O, E. }
  rewrite M. repeat split.
  pose proof (emits_calls_zero is_files_content
                (upload_and_wait W fuel tp) []) as C0.
  pose proof (emits_calls_zero is_files_content
                (wait_for_batch W fuel L0) tr0) as C1.
  rewrite U in C0. rewrite Wt in C1. simpl in C0, C1.
  rewrite C1, C0; auto.
  - apply emits_weaken with (ok := upload_event); [now intros []|].
    apply upload_and_wait_emits.
  - apply emits_weaken with (ok := poll_event); [now intros []|].
    apply batch_loop_emits.
Qed.


Lemma print_records lines values tr :
  Forall2 (fun l v => json_loads J l = Ok v) lines values ->
  for_each lines (print_record J) tr
  = (Ret tt, tr ++ map (fun v => Stdout (json_dumps J v 2)) values).
Proof.
  intros F. revert tr. induction F as [|l v lines values E F IH]; intros tr.
  - simpl. now rewrite app_nil_r.
  - cbn [for_each map]. unfold bind at 1, print_record at 1.
    unfold bind at 1, lift at 1. rewrite E. cbn [ret print emit].
    rewrite IH, <- app_assoc. reflexivity.
Qed.

(** C6.  When the retrieved file is newline-delimited JSON (one record
    per line, each of which [json.loads] parses, the lines joined by
    line breaks, with optional white space before the first and after
    the last record), each line is parsed on its own and printed by
    [json.dumps] with an indent of 2: one block per line, in the order
    of the lines, and nothing else. *)
Theorem result_file_is_printed_record_by_record :
  forall L tr b id text leader lines trailer values,
    v_batch_response L = Some b ->
    select_file_id b = Some id -> id <> EmptyString ->
    files_content W id = Ok text ->
    text = (leader ++ join_lines lines ++ trailer)%string ->
    Forall (fun l => has_newline l = false) lines ->
    starts_clean (hd EmptyString lines) = true ->
    ends_clean (last lines EmptyString) = true ->
    blank leader = true ->
    blank trailer = true ->
    Forall2 (fun l v => json_loads J l = Ok v) lines values ->
    fetch_output W J L tr
    = (Ret tt,
       tr ++ FilesContent id (Ok text)
          :: map (fun v => Stdout (json_dumps J v 2)) values).
Proof.
  intros L tr b id text leader lines trailer values B S N C ->
    F Hs He Hl Ht P.
  rewrite (fetch_output_selected L tr b id B S N).
  unfold remote, bind, emit. rewrite C. cbn [lift ret].
  rewrite records_of_text by assumption.
  rewrite (print_records lines values _ P), <- app_assoc. reflexivity.
Qed.

(** What [fetch_output] leaves on the trace once a file id is selected:
    the one retrieval of that file, then printed lines only. *)
Lemma fetch_output_retrieves L tr b id :
  v_batch_response L = Some b ->
  select_file_id b = Some id ->
  id <> EmptyString ->
  exists rest,
    snd (fetch_output W J L tr)
    = tr ++ FilesContent id (files_content W id) :: rest
    /\ forallb is_stdout rest = true.
Proof.
  intros B S N. rewrite (fetch_output_selected L tr b id B S N).
  unfold remote, bind, emit.
  destruct (files_content W id) as [text|e]; cbn [lift ret raise].
  - destruct (emits_for_each is_stdout (split newline (strip text))
                (print_record J)) with (tr := tr ++ [FilesContent id (Ok text)])
      as (ev & E & F).
    + intros raw. unfold print_record, print. emits_auto.
    + exists ev. rewrite E, <- app_assoc. auto.
  - exists []. auto.
Qed.

(** C5.  The file to fetch is the output file when the batch has an
    output-file id, and the error file otherwise, that is when the
    output-file id is [None] or empty.  The trace shows it: the one
    retrieval names the output file when there is one, and the error
    file when there is an error-file id only; and for such a batch the
    records printed are those of the lines of the error file, one block
    per line, in order. *)
Theorem fetch_prefers_output_file_then_error_file :
  (forall b o,
     output_file_id b = Some o -> o <> EmptyString ->
     select_file_id b = Some o)
  /\ (forall b,
        truthy (output_file_id b) = false ->
        select_file_id b = error_file_id b)
  /\ (forall L tr b o,
        v_batch_response L = Some b ->
        output_file_id b = Some o -> o <> EmptyString ->
        exists rest,
          snd (fetch_output W J L tr)
          = tr ++ FilesContent o (files_content W o) :: rest
          /\ forallb is_stdout rest = true)
  /\ (forall L tr b e,
        v_batch_response L = Some b ->
        truthy (output_file_id b) = false ->
        error_file_id b = Some e -> e <> EmptyString ->
        exists rest,
          snd (fetch_output W J L tr)
          = tr ++ FilesContent e (files_content W e) :: rest
          /\ forallb is_stdout rest = true)
  /\ (forall L tr b e text leader lines trailer values,
        v_batch_response L = Some b ->
        truthy (output_file_id b) = false ->
        error_file_id b = Some e -> e <> EmptyString ->
        files_content W e = Ok text ->
        text = (leader ++ join_lines lines ++ trailer)%string ->
        Forall (fun l => has_newline l = false) lines ->
        starts_clean (hd EmptyString lines) = true ->
        ends_clean (last lines EmptyString) = true ->
        blank leader = true ->
        blank trailer = true ->
        Forall2 (fun l v => json_loads J l = Ok v) lines values ->
        fetch_output W J L tr
        = (Ret tt,
           tr ++ FilesContent e (Ok text)
              :: map (fun v => Stdout (json_dumps J v 2)) values)).
Proof.
  assert (P : forall b o,
             output_file_id b = Some o -> o <> EmptyString ->
             select_file_id b = Some o).
  { intros b o O N. unfold select_file_id. rewrite O. simpl.
    destruct (String.eqb_spec o EmptyString) as [E|_]; [contradiction|].
    reflexivity. }
  assert (Q : forall b,
             truthy (output_file_id b) = false ->
             select_file_id b = error_file_id b).
  { intros b T. unfold select_file_id. now rewrite T. }
  split; [exact P|]. split; [exact Q|]. split; [|split].
  - intros L tr b o B O N. apply fetch_output_retrieves with (b := b); auto.
  - intros L tr b e B T E N. apply fetch_output_retrieves with (b := b); auto.
    now rewrite (Q b T).
  - intros L tr b e text leader lines trailer values B T E N C ->
      F Hs He Hl Ht R.
    assert (S : select_file_id b = Some e) by now rewrite (Q b T).
    rewrite (fetch_output_selected L tr b e B S N).
    unfold remote, bind, emit. rewrite C. cbn [lift ret].
    rewrite records_of_text by assumption.
    rewrite (print_records lines values _ R), <- app_assoc. reflexivity.
Qed.

End Parts.

(** *** Concrete runs *)

Import Scenario.

(** C1.  With a file that is reported pending at the first poll and
    processed at the second, the batch job is submitted twice, the first
    time right after the poll that observed ["pending"]. *)
Theorem batch_is_submitted_on_every_poll :
  let tr := snd (main two_polls Json.lib 5 []) in
  filter (fun e => is_files_retrieve e || is_batches_create e) tr
  = [ FilesRetrieve "file-1" (Ok (mkFile "file-1" "pending"));
      BatchesCreate "file-1" "/chat/completions" "24h" (Ok created);
      FilesRetrieve "file-1" (Ok (mkFile "file-1" "processed"));
      BatchesCreate "file-1" "/chat/completions" "24h" (Ok created) ]
  /\ calls is_batches_create tr = 2.
Proof. vm_compute. split; reflexivity. Qed.

(** C2.  The status ["process"] is not ["processed"], yet it fails the
    test of the first loop: the loop is left after the one poll that
    observed it. *)
Theorem file_loop_exits_on_a_substring :
  "process"%string <> "processed"%string
  /\ str_in "process" "processed" = true
  /\ forall fuel, exists tr,
       upload_and_wait substring_status (S fuel) 0 []
       = (Ret (mkLocals (mkFile "file-1" "process") "file-1" "process"
                 (Some created) (Some "batch-1")), tr)
       /\ filter is_files_retrieve tr
          = [FilesRetrieve "file-1" (Ok (mkFile "file-1" "process"))].
Proof.
  split; [discriminate|]. split; [reflexivity|].
  intros fuel. eexists. split.
  - unfold upload_and_wait. cbn [file_loop].
    unfold bind, lift, remote, remote_nth, now, print, time_sleep, emit.
    cbn -[file_loop]. rewrite file_loop_done by reflexivity. reflexivity.
  - reflexivity.
Qed.

(** C8.  A service that reports the file status ["ed"] for ever never
    reports ["processed"], yet the first loop ends after one poll and
    one sleep of thirty seconds, for any bound on the iterations. *)
Theorem file_loop_ends_without_processed :
  (forall n id, exists f,
     files_retrieve never_processed n id = Ok f
     /\ file_status f <> "processed"%string)
  /\ forall fuel,
       fst (upload_and_wait never_processed (S fuel) 0 []) <> OutOfFuel
       /\ sleeps_of (snd (upload_and_wait never_processed (S fuel) 0 []))
          = [30%Z].
Proof.
  split.
  - intros n id. eexists. split; [reflexivity|]. cbn. discriminate.
  - intros fuel.
    assert (E : exists L tr,
               upload_and_wait never_processed (S fuel) 0 [] = (Ret L, tr)
               /\ sleeps_of tr = [30%Z]).
    { do 2 eexists. split.
      - unfold upload_and_wait. cbn [file_loop].
        unfold bind, lift, remote, remote_nth, now, print, time_sleep, emit.
        cbn -[file_loop]. rewrite file_loop_done by reflexivity. reflexivity.
      - reflexivity. }
    destruct E as (L & tr & -> & S). split; [discriminate|exact S].
Qed.

(** *** Instances of the theorems *)

Lemma batch_polling_stops_at_terminal_status_witness :
  fst (batch_loop two_polls 2
         (mkLocals (mkFile "file-1" "processed") "file-1" "validating"
            (Some created) (Some "batch-1")) []) <> OutOfFuel
  /\ calls is_batches_retrieve
       (snd (batch_loop two_polls 2
               (mkLocals (mkFile "file-1" "processed") "file-1" "validating"
                  (Some created) (Some "batch-1")) []))
     = calls is_batches_retrieve [] + (1 + 1).
Proof.
  apply (proj2 (batch_polling_stops_at_terminal_status two_polls Json.lib)
           1 _ [] "batch-1" 2).
  - reflexivity.
  - reflexivity.
  - intros i Hi. assert (i = 0) as -> by lia.
    eexists. split; reflexivity.
  - eexists. split; reflexivity.
  - lia.
Defined.

Lemma exit_status_of_batch_driver_witness :
  main upload_refused Json.lib 3 []
  = (Ret tt,
     [ FilesCreate "{}" "batch"
         (Err (mkError "APIConnectionError" "Connection error.")) ]
       ++ [ LogError "Failed batch chat completion: "
              (Exception (mkError "APIConnectionError" "Connection error.")) ])
  /\ exit_code (fst (main upload_refused Json.lib 3 [])) = Some 0%Z.
Proof.
  apply (proj2 (exit_status_of_batch_driver upload_refused Json.lib 3) 0).
  - split; [reflexivity|]. split.
    + exists true. reflexivity.
    + exists 0. split; reflexivity.
  - reflexivity.
Defined.

Lemma fetch_prefers_output_file_then_error_file_witness :
  select_file_id (batch_with "completed" (Some "file-out") (Some "file-err"))
  = Some "file-out"%string
  /\ select_file_id
       (batch_with "failed" (Some EmptyString) (Some "file-err"))
     = error_file_id
         (batch_with "failed" (Some EmptyString) (Some "file-err"))
  /\ (exists rest,
        snd (fetch_output two_polls Json.lib
               (mkLocals (mkFile "file-1" "processed") "file-1" "completed"
                  (Some (batch_with "completed" (Some "file-out")
                           (Some "file-err")))
                  (Some "batch-1")) [])
        = [] ++ FilesContent "file-out" (files_content two_polls "file-out")
             :: rest
        /\ forallb is_stdout rest = true)
  /\ (exists rest,
        snd (fetch_output only_error_file Json.lib
               (mkLocals (mkFile "file-1" "processed") "file-1" "failed"
                  (Some failed_batch) (Some "batch-1")) [])
        = [] ++ FilesContent "file-err"
                  (files_content only_error_file "file-err")
             :: rest
        /\ forallb is_stdout rest = true)
  /\ fetch_output only_error_file Json.lib
       (mkLocals (mkFile "file-1" "processed") "file-1" "failed"
          (Some failed_batch) (Some "batch-1")) []
     = (Ret tt,
        [] ++ FilesContent "file-err"
                (Ok (json_text "{'error': 'invalid request'}"))
           :: map (fun v => Stdout (json_dumps Json.lib v 2))
                [ Json.JObject
                    [("error"%string,
                      Json.JString "invalid request"%string)] ]).
Proof.
  split; [|split; [|split; [|split]]].
  - apply (proj1 (fetch_prefers_output_file_then_error_file
                    only_error_file Json.lib)).
    + reflexivity.
    + discriminate.
  - apply (proj1 (proj2 (fetch_prefers_output_file_then_error_file
                           only_error_file Json.lib))).
    reflexivity.
  - apply (proj1 (proj2 (proj2 (fetch_prefers_output_file_then_error_file
                                  two_polls Json.lib)))
             _ []
             (batch_with "completed" (Some "file-out") (Some "file-err"))
             "file-out").
    + reflexivity.
    + reflexivity.
    + discriminate.
  - apply (proj1 (proj2 (proj2 (proj2
             (fetch_prefers_output_file_then_error_file
                only_error_file Json.lib))))
             _ [] failed_batch "file-err").
    + reflexivity.
    + reflexivity.
    + reflexivity.
    + discriminate.
  - apply (proj2 (proj2 (proj2 (proj2
             (fetch_prefers_output_file_then_error_file
                only_error_file Json.lib))))
             _ [] failed_batch "file-err"
             (json_text "{'error': 'invalid request'}") EmptyString
             [json_text "{'error': 'invalid request'}"] EmptyString).
    + reflexivity.
    + reflexivity.
    + reflexivity.
    + discriminate.
    + reflexivity.
    + reflexivity.
    + repeat constructor.
    + reflexivity.
    + reflexivity.
    + reflexivity.
    + reflexivity.
    + repeat constructor.
Defined.

(** The block that the run above prints for the error file. *)
Example error_record_printed :
  stdout_of
    (snd (fetch_output only_error_file Json.lib
            (mkLocals (mkFile "file-1" "processed") "file-1" "failed"
               (Some failed_batch) (Some "batch-1")) []))
  = [ json_text ("{" ++ String newline "  'error': 'invalid request'"
                   ++ String newline "}") ].
Proof. vm_compute. reflexivity. Qed.

Lemma result_file_is_printed_record_by_record_witness :
  fetch_output two_polls Json.lib
    (mkLocals (mkFile "file-1" "processed") "file-1" "completed"
       (Some (batch_with "completed" (Some "file-out") None))
       (Some "batch-1")) []
  = (Ret tt,
     [] ++ FilesContent "file-out" (Ok two_records)
        :: map (fun v => Stdout (json_dumps Json.lib v 2))
             [ Json.JObject [("a"%string, Json.JInt 1)];
               Json.JObject [("b"%string, Json.JInt 2)] ]).
Proof.
  apply (result_file_is_printed_record_by_record two_polls Json.lib
           _ [] (batch_with "completed" (Some "file-out") None) "file-out"
           two_records EmptyString [json_text "{'a':1}"; json_text "{'b':2}"]
           (String newline EmptyString)).
  - reflexivity.
  - reflexivity.
  - discriminate.
  - reflexivity.
  - reflexivity.
  - repeat constructor.
  - reflexivity.
  - reflexivity.
  - reflexivity.
  - reflexivity.
  - repeat constructor.
Defined.

(** The two blocks that the run above prints for the two-line file. *)
Example two_records_printed :
  stdout_of
    (snd (fetch_output two_polls Json.lib
            (mkLocals (mkFile "file-1" "processed") "file-1" "completed"
               (Some (batch_with "completed" (Some "file-out") None))
               (Some "batch-1")) []))
  = [ json_text ("{" ++ String newline "  'a': 1" ++ String newline "}");
      json_text ("{" ++ String newline "  'b': 2" ++ String newline "}") ].
Proof. vm_compute. reflexivity. Qed.

Lemma first_loop_runs_and_binds_batch_id_witness :
  calls is_files_retrieve []
  < calls is_files_retrieve
      (snd (file_loop two_polls 3
              (mkLocals (mkFile "file-1" "pending") "file-1" "pending"
                 None None) []))
  /\ exists b fid,
       v_batch_response waited = Some b
       /\ v_batch_id waited = Some (batch_id b)
       /\ In (BatchesCreate fid "/chat/completions" "24h" (Ok b))
            (snd (upload_and_wait two_polls 3 0 []))
       /\ calls is_batches_create []
          < calls is_batches_create (snd (upload_and_wait two_polls 3 0 [])).
Proof.
  split.
  - apply (proj1 (proj2 (first_loop_runs_and_binds_batch_id
                           two_polls))).
    reflexivity.
  - apply (proj2 (proj2 (first_loop_runs_and_binds_batch_id two_polls))
             3 0 []).
    vm_compute. reflexivity.
Defined.

Lemma no_file_id_means_no_retrieval_witness :
  main no_files Json.lib 3 []
  = (Ret tt, snd (wait_for_batch no_files 3 waited
                    (snd (upload_and_wait no_files 3 0 []))))
  /\ exit_code (fst (main no_files Json.lib 3 [])) = Some 0%Z
  /\ calls is_files_content
       (snd (wait_for_batch no_files 3 waited
               (snd (upload_and_wait no_files 3 0 [])))) = 0.
Proof.
  apply (no_file_id_means_no_retrieval no_files Json.lib 3 0 waited
           (snd (upload_and_wait no_files 3 0 []))
           (mkLocals (mkFile "file-1" "processed") "file-1" "cancelled"
              (Some (batch_with "cancelled" None None)) (Some "batch-1"))
           _ (batch_with "cancelled" None None)).
  - split; [reflexivity|]. split.
    + exists true. reflexivity.
    + exists 0. split; reflexivity.
  - vm_compute. reflexivity.
  - vm_compute. reflexivity.
  - reflexivity.
  - reflexivity.
  - reflexivity.
Defined.

End BatchFacts.

(** ** The augmented chat requester *)

Module DataSourcesFacts.
Import Py Sdk Sdk.Notations Run Logic DataSources.
Local Open Scope list_scope.

Section Requester.
Variable W : World.

Lemma chat_main_after_setup tp tr :
  setup_succeeds W scope tp ->
  main W tr
  = try_except (chat_completion W tp)
      (fun e => logging_error "Failed chat completion: " e) tr.
Proof. apply (SetupFacts.after_setup W scope). Qed.

Lemma chat_main_setup_fails tr :
  setup_fails W scope ->
  exists ev,
    setup_event ev = true
    /\ main W tr = (Raise (SystemExit 1), tr ++ [ev]).
Proof. apply (SetupFacts.setup_failure W scope). Qed.

(** What [main] leaves on the trace: nothing but a start-up or handler
    record, or the one request followed by one printed line or one
    handler record. *)
Lemma main_trace :
  (exists ev, setup_event ev = true /\ snd (main W []) = [ev])
  \/ (exists r ev,
        is_stdout ev || setup_event ev = true
        /\ snd (main W []) = [ChatCreate (chat_request W) r; ev]).
Proof.
  destruct (SetupFacts.setup_decided W scope) as [F|(tp & S)].
  - left. destruct (chat_main_setup_fails [] F) as (ev & He & ->). now exists ev.
  - rewrite (chat_main_after_setup tp [] S).
    unfold try_except, chat_completion, remote, first, bind, lift, print,
      logging_error, emit.
    destruct (AzureOpenAI W _ _ tp) as [c|e]; simpl.
    2: { left. eexists. split; [|reflexivity]. reflexivity. }
    right. destruct (chat_completions_create W (chat_request W))
      as [response|e]; simpl.
    2: { do 2 eexists. split; [|reflexivity]. reflexivity. }
    destruct (choices response) as [|choice rest]; simpl;
      do 2 eexists; (split; [|reflexivity]); reflexivity.
Qed.

(** C7.  The request carries exactly one data source; its query type is
    [vector_semantic_hybrid], its document limit 3 and its maximum of
    search queries 3.  A run of [main] sends at most one request, and
    only this one; when the start-up and the client succeed it sends it
    exactly once, and on an answer it prints the message content of the
    first choice and nothing else. *)
Theorem one_hybrid_request_and_first_choice_printed :
  (exists source,
     data_sources_of (chat_request W) = Some [source]
     /\ parameter_of source "query_type" = Some (VStr "vector_semantic_hybrid")
     /\ parameter_of source "top_n_documents" = Some (VInt 3)
     /\ parameter_of source "max_search_queries" = Some (VInt 3))
  /\ calls is_chat_create (snd (main W [])) <= 1
  /\ (forall req r,
        In (ChatCreate req r) (snd (main W [])) -> req = chat_request W)
  /\ (forall tp c,
        setup_succeeds W scope tp ->
        AzureOpenAI W (getenv W "OPENAI_API_VERSION")
          (getenv W "AZURE_OPENAI_ENDPOINT") tp = Ok c ->
        calls is_chat_create (snd (main W [])) = 1
        /\ forall response choice rest,
             chat_completions_create W (chat_request W) = Ok response ->
             choices response = choice :: rest ->
             main W []
             = (Ret tt,
                [ ChatCreate (chat_request W) (Ok response);
                  Stdout (str_of_opt (message_content choice)) ])).
Proof.
  split; [|split; [|split]].
  - eexists. repeat split; reflexivity.
  - destruct main_trace as [(ev & He & ->)|(r & ev & He & ->)].
    + destruct ev; try discriminate; cbn; lia.
    + destruct ev; try discriminate; cbn; lia.
  - intros req r.
    destruct main_trace as [(ev & He & ->)|(r' & ev & He & ->)].
    + intros [E|[]]. subst ev. discriminate.
    + intros [E|[E|[]]].
      * now injection E as <- _.
      * subst ev. discriminate.
  - intros tp c S C. rewrite (chat_main_after_setup tp [] S).
    unfold try_except, chat_completion, remote, first, bind, lift, print,
      logging_error, emit.
    rewrite C. simpl. split.
    + destruct (chat_completions_create W (chat_request W))
        as [response|e]; simpl; [|reflexivity].
      destruct (choices response); reflexivity.
    + intros response choice rest -> E. simpl. now rewrite E.
Qed.

End Requester.

Import Scenario.

Lemma one_hybrid_request_and_first_choice_printed_witness :
  calls is_chat_create (snd (main two_polls [])) = 1
  /\ main two_polls []
     = (Ret tt,
        [ ChatCreate (chat_request two_polls)
            (Ok (mkChatCompletion
                   [mkChoice (Some "first answer"%string);
                    mkChoice (Some "second"%string)]));
          Stdout (str_of_opt
                    (message_content (mkChoice (Some "first answer"%string)))) ]).
Proof.
  destruct (proj2 (proj2 (proj2
              (one_hybrid_request_and_first_choice_printed two_polls)))
              0 0) as [Once Printed].
  - split; [reflexivity|]. split.
    + exists true. reflexivity.
    + exists 0. split; reflexivity.
  - reflexivity.
  - split; [exact Once|].
    apply (Printed _ _ [mkChoice (Some "second"%string)]); reflexivity.
Defined.

End DataSourcesFacts.

(** ** More on the batch driver *)

Module BatchMore.
Import Py Sdk Sdk.Notations Run Logic Batch StringFacts BatchFacts.
Local Open Scope list_scope.

(** *** Traces in which every remote call is justified *)

Lemma causal_nil : causal [].
Proof. intros pre e post E. now destruct pre. Qed.

Lemma causal_snoc tr e : causal tr -> justified tr e -> causal (tr ++ [e]).
Proof.
  intros H He pre x post E.
  destruct post as [|y post _] using rev_ind.
  - apply app_inj_tail in E as [-> ->]. exact He.
  - change (pre ++ x :: post ++ [y]) with (pre ++ (x :: post) ++ [y]) in E.
    rewrite app_assoc in E. apply app_inj_tail in E as [-> _].
    now apply (H pre x post).
Qed.

Lemma causal_free tr e : causal tr -> free_event e = true -> causal (tr ++ [e]).
Proof. intros H F. apply causal_snoc; [exact H|]. now destruct e. Qed.

Lemma free_preserves_causal {A} (m : M A) :
  emits free_event m -> preserves causal m.
Proof. apply emits_preserves. exact causal_free. Qed.

(** What a computation emits stays on the trace. *)
Lemma emits_keeps {A} ok (m : M A) tr e :
  emits ok m -> In e tr -> In e (snd (m tr)).
Proof.
  intros Hm I. destruct (Hm tr) as (ev & -> & _). apply in_or_app. now left.
Qed.

Section Parts.
Variable W : World.
Variable J : JsonLib.

Lemma file_loop_causal fuel : forall L tr,
  causal tr ->
  (exists content f,
     In (FilesCreate content "batch" (Ok f)) tr /\ v_file_id L = file_id f) ->
  causal (snd (file_loop W fuel L tr)).
Proof.
  induction fuel as [|fuel IH]; intros L tr C (content & f & I & E);
    cbn [file_loop];
    destruct (str_in (v_status L) "processed"); simpl; auto.
  unfold bind, now, print, time_sleep, emit, remote_nth, remote. simpl.
  set (tr1 := ((tr ++ [Stdout _]) ++ [Sleep _])).
  assert (C1 : causal tr1) by (now repeat apply causal_free).
  assert (I1 : In (FilesCreate content "batch" (Ok f)) tr1)
    by (unfold tr1; rewrite !in_app_iff; auto).
  set (r := files_retrieve W (calls is_files_retrieve tr1) (v_file_id L)).
  assert (C2 : causal (tr1 ++ [FilesRetrieve (v_file_id L) r])).
  { apply causal_snoc; [exact C1|]. simpl. eauto. }
  destruct r as [file|e]; simpl; [|exact C2].
  set (tr2 := ((tr1 ++ [FilesRetrieve _ _]) ++ [Stdout _])).
  assert (C3 : causal tr2) by (now apply causal_free).
  set (r := batches_create W (calls is_batches_create tr2) (file_id file)
              "/chat/completions" "24h").
  assert (C4 : causal (tr2 ++ [BatchesCreate (file_id file)
                                 "/chat/completions" "24h" r])).
  { apply causal_snoc; [exact C3|]. simpl. repeat split.
    exists (v_file_id L), file. split; [|reflexivity].
    unfold tr2. rewrite !in_app_iff. simpl. auto. }
  destruct r as [b|e]; simpl; [|exact C4].
  apply IH.
  - now apply causal_free.
  - exists content, f. simpl. split; [|exact E].
    unfold tr2. rewrite !in_app_iff. auto 10.
Qed.

Lemma upload_and_wait_causal fuel tp :
  causal (snd (upload_and_wait W fuel tp [])).
Proof.
  unfold upload_and_wait, bind, lift, remote, print, emit.
  destruct (AzureOpenAI W _ _ tp) as [c|e]; simpl; [|apply causal_nil].
  destruct (open_rb W "sample.jsonl") as [content|e]; simpl;
    [|apply causal_nil].
  destruct (files_create W content "batch") as [file|e]; simpl.
  - apply file_loop_causal.
    + apply (causal_free [_]); [|reflexivity].
      apply (causal_free []); [apply causal_nil|reflexivity].
    + exists content, file. simpl. auto.
  - apply (causal_free []); [apply causal_nil|reflexivity].
Qed.

Lemma upload_and_wait_binds fuel tp L tr :
  upload_and_wait W fuel tp [] = (Ret L, tr) ->
  exists fid b,
    v_batch_id L = Some (batch_id b)
    /\ In (BatchesCreate fid "/chat/completions" "24h" (Ok b)) tr.
Proof.
  unfold upload_and_wait, bind, lift, remote, print, emit.
  destruct (AzureOpenAI W _ _ tp) as [c|e]; simpl; [|discriminate].
  destruct (open_rb W "sample.jsonl") as [content|e]; simpl; [|discriminate].
  destruct (files_create W content "batch") as [file|e]; simpl;
    [|discriminate].
  intros R. apply file_loop_binds in R as [(_ & _ & T)|(b & fid & H)].
  - discriminate.
  - exists fid, b. tauto.
Qed.

Lemma batch_loop_causal fuel : forall L tr,
  causal tr ->
  (forall id, v_batch_id L = Some id ->
     exists fid b,
       In (BatchesCreate fid "/chat/completions" "24h" (Ok b)) tr
       /\ id = batch_id b) ->
  causal (snd (batch_loop W fuel L tr)).
Proof.
  induction fuel as [|fuel IH]; intros L tr C B; cbn [batch_loop];
    destruct (tuple_in (v_status L) terminal_statuses); simpl; auto.
  unfold bind, now, read_local, print, time_sleep, emit, remote_nth, remote.
  destruct (v_batch_id L) as [id|] eqn:Eid; simpl; [|exact C].
  destruct (B id eq_refl) as (fid & b0 & I & E).
  set (tr1 := (tr ++ [Stdout _]) ++ [Sleep _]).
  assert (C1 : causal tr1) by (now repeat apply causal_free).
  set (r := batches_retrieve W (calls is_batches_retrieve tr1) id).
  assert (C2 : causal (tr1 ++ [BatchesRetrieve id r])).
  { apply causal_snoc; [exact C1|]. simpl. exists fid, b0. split; [|exact E].
    unfold tr1. rewrite !in_app_iff. auto. }
  destruct r as [b|e]; simpl; [|exact C2].
  set (tr2 := (tr1 ++ [BatchesRetrieve id (Ok b)]) ++ [Stdout _]).
  assert (C3 : causal tr2) by (now apply causal_free).
  set (m := if String.eqb (batch_status b) "failed"
            then print_errors b else ret tt).
  assert (Hm : emits is_stdout m).
  { unfold m. destruct (String.eqb (batch_status b) "failed");
      [apply print_errors_emits | apply emits_ret]. }
  assert (C4 : causal (snd (m tr2))).
  { apply (free_preserves_causal m); [|exact C3].
    apply emits_weaken with (ok := is_stdout); [now intros []|exact Hm]. }
  assert (I4 : In (BatchesCreate fid "/chat/completions" "24h" (Ok b0))
                 (snd (m tr2))).
  { apply (emits_keeps is_stdout); [exact Hm|].
    unfold tr2, tr1. rewrite !in_app_iff. auto 10. }
  destruct (m tr2) as [[u|e|] tr3]; simpl in *; auto.
  apply IH; [exact C4|]. simpl. intros id' [= <-]. eauto.
Qed.

(** When the second loop is left normally after at least one iteration,
    the last batch it polled is bound to [batch_response] and has a
    terminal status. *)
Lemma batch_loop_returns fuel : forall L tr L' tr',
  batch_loop W fuel L tr = (Ret L', tr') ->
  (tuple_in (v_status L) terminal_statuses = true /\ L' = L /\ tr' = tr)
  \/ (exists id b,
        v_batch_response L' = Some b
        /\ tuple_in (batch_status b) terminal_statuses = true
        /\ In (BatchesRetrieve id (Ok b)) tr').
Proof.
  induction fuel as [|fuel IH]; intros L tr L' tr'; cbn [batch_loop];
    destruct (tuple_in (v_status L) terminal_statuses) eqn:T; simpl;
    try (intros [= <- <-]; now left); try discriminate.
  unfold bind, now, read_local, print, time_sleep, emit, remote_nth, remote.
  destruct (v_batch_id L) as [id|] eqn:Eid; simpl; [|discriminate].
  set (tr1 := (tr ++ [Stdout _]) ++ [Sleep _]).
  destruct (batches_retrieve W (calls is_batches_retrieve tr1) id) as [b|e];
    simpl; [|discriminate].
  set (tr2 := (tr1 ++ [BatchesRetrieve id (Ok b)]) ++ [Stdout _]).
  set (m := if String.eqb (batch_status b) "failed"
            then print_errors b else ret tt).
  assert (Hm : emits is_stdout m).
  { unfold m. destruct (String.eqb (batch_status b) "failed");
      [apply print_errors_emits | apply emits_ret]. }
  assert (I : In (BatchesRetrieve id (Ok b)) (snd (m tr2))).
  { apply (emits_keeps is_stdout); [exact Hm|].
    unfold tr2. rewrite !in_app_iff. simpl. auto. }
  destruct (m tr2) as [[u|e|] tr3]; simpl in *; try discriminate.
  intros R. right. apply IH in R as [(Tb & -> & ->)|H]; [|exact H].
  simpl in *. exists id, b. auto.
Qed.

Lemma fetch_output_causal L tr :
  causal tr ->
  (forall b, v_batch_response L = Some b ->
     tuple_in (batch_status b) terminal_statuses = true
     /\ exists id, In (BatchesRetrieve id (Ok b)) tr) ->
  causal (snd (fetch_output W J L tr)).
Proof.
  intros C B. unfold fetch_output, read_local.
  destruct (v_batch_response L) as [b|]; [|exact C].
  destruct (B b eq_refl) as (T & id & I).
  unfold bind at 1, ret at 1.
  destruct (select_file_id b) as [fid|] eqn:S; simpl; [|exact C].
  destruct (String.eqb fid EmptyString); simpl; [exact C|].
  apply (free_preserves_causal
           (text <- lift (files_content W fid) ;;
            for_each (split newline (strip text)) (print_record J))).
  - unfold print_record, print. emits_auto.
  - apply causal_snoc; [exact C|]. simpl. eauto.
Qed.

Lemma body_causal fuel tp :
  causal (snd (batch_chat_completion W J fuel tp [])).
Proof.
  unfold batch_chat_completion. unfold bind at 1.
  pose proof (upload_and_wait_causal fuel tp) as C0.
  destruct (upload_and_wait W fuel tp []) as [[L0|e|] tr0] eqn:U;
    simpl in C0; auto.
  apply upload_and_wait_binds in U as (fid & b0 & B0 & I0).
  unfold bind. unfold wait_for_batch.
  match goal with
  | |- context [batch_loop W fuel ?L ?t] =>
      pose proof (batch_loop_causal fuel L t C0) as C1;
      pose proof (batch_loop_returns fuel L t) as R1;
      destruct (batch_loop W fuel L t) as [[L1|e|] tr1]
  end; simpl in *.
  - apply fetch_output_causal.
    + apply C1. intros id H. rewrite B0 in H. injection H as <-. eauto.
    + destruct (R1 L1 tr1 eq_refl) as [(T & _)|(id & b & Hb & T & I)];
        [discriminate|].
      intros b' H. rewrite Hb in H. injection H as <-. eauto.
  - apply C1. intros id H. rewrite B0 in H. injection H as <-. eauto.
  - apply C1. intros id H. rewrite B0 in H. injection H as <-. eauto.
Qed.

(** The two ways [main] starts: a start-up step fails, or the body of
    the [try] statement runs from the empty trace. *)
Lemma main_cases fuel :
  (exists ev,
     setup_event ev = true
     /\ main W J fuel [] = (Raise (SystemExit 1), [ev]))
  \/ (exists tp,
        setup_succeeds W scope tp
        /\ main W J fuel []
           = try_except (batch_chat_completion W J fuel tp)
               (fun e => logging_error "Failed batch chat completion: " e)
               []).
Proof.
  destruct (SetupFacts.setup_decided W scope) as [F|(tp & S)].
  - left. destruct (main_setup_fails W J fuel [] F) as (ev & He & E).
    now exists ev.
  - right. exists tp. split; [exact S|]. now apply main_after_setup.
Qed.

Lemma main_causal fuel : causal (snd (main W J fuel [])).
Proof.
  destruct (main_cases fuel) as [(ev & He & ->)|(tp & _ & ->)].
  - apply (causal_free []); [apply causal_nil|]. now destruct ev.
  - pose proof (body_causal fuel tp) as C. unfold try_except.
    destruct (batch_chat_completion W J fuel tp []) as [[u|e|] tr];
      simpl in *; auto.
    now apply causal_free.
Qed.

(** X1.  Every poll of the file status names the file that the upload
    returned. *)
Theorem file_polls_name_the_uploaded_file fuel :
  forall pre id r post,
    snd (main W J fuel []) = pre ++ FilesRetrieve id r :: post ->
    exists content f,
      In (FilesCreate content "batch" (Ok f)) pre /\ id = file_id f.
Proof. intros pre id r post E. exact (main_causal fuel _ _ _ E). Qed.

(** X2.  Every submission goes to the end point [/chat/completions] with the
    window [24h], for the file object that a poll of the file status
    returned. *)
Theorem submissions_name_a_polled_file fuel :
  forall pre fid endpoint window r post,
    snd (main W J fuel [])
    = pre ++ BatchesCreate fid endpoint window r :: post ->
    endpoint = "/chat/completions"%string /\ window = "24h"%string
    /\ exists id f, In (FilesRetrieve id (Ok f)) pre /\ fid = file_id f.
Proof.
  intros pre fid endpoint window r post E. exact (main_causal fuel _ _ _ E).
Qed.

(** X3.  Every poll of the batch status names a batch that a submission
    returned. *)
Theorem batch_polls_name_a_submitted_batch fuel :
  forall pre id r post,
    snd (main W J fuel []) = pre ++ BatchesRetrieve id r :: post ->
    exists fid b,
      In (BatchesCreate fid "/chat/completions" "24h" (Ok b)) pre
      /\ id = batch_id b.
Proof. intros pre id r post E. exact (main_causal fuel _ _ _ E). Qed.

(** *** The retrieval of the result file, in the whole run *)

Lemma fetch_output_once L tr :
  calls is_files_content (snd (fetch_output W J L tr))
  <= calls is_files_content tr + 1.
Proof.
  unfold fetch_output, read_local.
  destruct (v_batch_response L) as [b|]; simpl; [|lia].
  unfold bind at 1, ret at 1.
  destruct (truthy (select_file_id b)); simpl; [|lia].
  unfold remote, bind, emit, lift.
  destruct (files_content W _) as [text|e]; simpl.
  - rewrite (emits_calls_zero is_files_content
               (for_each (split newline (strip text)) (print_record J))).
    + rewrite calls_snoc. simpl. lia.
    + unfold print_record, print. emits_auto.
  - rewrite calls_snoc. simpl. lia.
Qed.

Lemma body_fetches_once fuel tp :
  calls is_files_content (snd (batch_chat_completion W J fuel tp [])) <= 1.
Proof.
  unfold batch_chat_completion. unfold bind at 1.
  pose proof (emits_calls_zero is_files_content
                (upload_and_wait W fuel tp) []) as C0.
  destruct (upload_and_wait W fuel tp []) as [[L0|e|] tr0]; simpl in *;
    try (rewrite C0; [cbn; lia|];
         apply emits_weaken with (ok := upload_event); [now intros []|];
         apply upload_and_wait_emits).
  unfold bind.
  pose proof (emits_calls_zero is_files_content
                (wait_for_batch W fuel L0) tr0) as C1.
  assert (Z : calls is_files_content tr0 = 0).
  { rewrite C0; [reflexivity|].
    apply emits_weaken with (ok := upload_event); [now intros []|].
    apply upload_and_wait_emits. }
  assert (Z1 : calls is_files_content (snd (wait_for_batch W fuel L0 tr0)) = 0).
  { rewrite C1; [exact Z|].
    apply emits_weaken with (ok := poll_event); [now intros []|].
    apply batch_loop_emits. }
  destruct (wait_for_batch W fuel L0 tr0) as [[L1|e|] tr1]; simpl in *;
    try lia.
  pose proof (fetch_output_once L1 tr1). lia.
Qed.

(** X4.  A file content is retrieved at most once, only after a poll of the
    batch status has observed a terminal status, and the file is the one
    selected from the batch that this poll returned. *)
Theorem retrieval_follows_a_terminal_status fuel :
  calls is_files_content (snd (main W J fuel [])) <= 1
  /\ forall pre id r post,
       snd (main W J fuel []) = pre ++ FilesContent id r :: post ->
       exists bid b,
         In (BatchesRetrieve bid (Ok b)) pre
         /\ tuple_in (batch_status b) terminal_statuses = true
         /\ select_file_id b = Some id.
Proof.
  split.
  - destruct (main_cases fuel) as [(ev & He & ->)|(tp & _ & ->)].
    + destruct ev; try discriminate; cbn; lia.
    + pose proof (body_fetches_once fuel tp) as B. unfold try_except.
      destruct (batch_chat_completion W J fuel tp []) as [[u|e|] tr];
        simpl in *; auto.
      unfold logging_error, emit. simpl. rewrite calls_snoc. simpl. lia.
  - intros pre id r post E. exact (main_causal fuel _ _ _ E).
Qed.

(** *** The sleeps *)

Lemma paced_still tr e : paced tr -> still_event e = true -> paced (tr ++ [e]).
Proof.
  unfold paced. intros H S. rewrite sleeps_of_app, !calls_snoc, H.
  destruct e; try discriminate; simpl; now rewrite ?Nat.add_0_r, ?app_nil_r.
Qed.

Lemma no_poll_still tr e :
  no_poll tr -> still_event e = true -> no_poll (tr ++ [e]).
Proof.
  unfold no_poll. intros H S. rewrite calls_snoc, H.
  now destruct e.
Qed.

Lemma paced_file_poll tr id r :
  paced tr -> no_poll tr ->
  paced ((tr ++ [Sleep 30]) ++ [FilesRetrieve id r])
  /\ no_poll ((tr ++ [Sleep 30]) ++ [FilesRetrieve id r]).
Proof.
  unfold paced, no_poll. intros H N.
  rewrite !sleeps_of_app, !calls_snoc, H, N. simpl.
  rewrite !app_nil_r, Nat.add_0_r. split; [|reflexivity].
  rewrite Nat.add_1_r. simpl. now rewrite repeat_cons.
Qed.

Lemma paced_batch_poll tr id r :
  paced tr -> paced ((tr ++ [Sleep 5]) ++ [BatchesRetrieve id r]).
Proof.
  unfold paced. intros H.
  rewrite !sleeps_of_app, !calls_snoc, H. simpl.
  rewrite !app_nil_r, !Nat.add_0_r, Nat.add_1_r. simpl.
  now rewrite repeat_cons, app_assoc.
Qed.

Lemma still_preserves_paced {A} ok (m : M A) :
  (forall e, ok e = true -> still_event e = true) ->
  emits ok m -> preserves paced m.
Proof.
  intros Hok Hm. apply (emits_preserves ok); auto.
  intros tr e P He. apply paced_still; auto.
Qed.

Lemma file_loop_paced fuel : forall L,
  preserves (fun tr => paced tr /\ no_poll tr) (file_loop W fuel L).
Proof.
  induction fuel as [|fuel IH]; intros L tr [P N]; cbn [file_loop];
    destruct (str_in (v_status L) "processed"); simpl; auto.
  unfold bind, now, print, time_sleep, emit, remote_nth, remote. simpl.
  set (tr0 := tr ++ [Stdout _]).
  assert (P0 : paced tr0) by (now apply paced_still).
  assert (N0 : no_poll tr0) by (now apply no_poll_still).
  set (r := files_retrieve W _ _).
  destruct (paced_file_poll tr0 (v_file_id L) r P0 N0) as [P1 N1].
  destruct r as [file|e]; simpl; [|auto].
  set (tr2 := (((tr0 ++ [Sleep 30]) ++ [FilesRetrieve _ _]) ++ [Stdout _])).
  assert (P2 : paced tr2) by (now apply paced_still).
  assert (N2 : no_poll tr2) by (now apply no_poll_still).
  destruct (batches_create W _ _ _ _) as [b|e]; simpl.
  - apply IH. split.
    + apply paced_still; [|reflexivity]. now apply paced_still.
    + apply no_poll_still; [|reflexivity]. now apply no_poll_still.
  - split; [now apply paced_still | now apply no_poll_still].
Qed.

Lemma batch_loop_paced fuel : forall L, preserves paced (batch_loop W fuel L).
Proof.
  induction fuel as [|fuel IH]; intros L tr P; cbn [batch_loop];
    destruct (tuple_in (v_status L) terminal_statuses); simpl; auto.
  unfold bind, now, read_local, print, time_sleep, emit, remote_nth, remote.
  destruct (v_batch_id L) as [id|]; simpl; [|exact P].
  set (tr0 := tr ++ [Stdout _]).
  assert (P0 : paced tr0) by (now apply paced_still).
  set (r := batches_retrieve W _ _).
  pose proof (paced_batch_poll tr0 id r P0) as P1.
  destruct r as [b|e]; simpl; [|exact P1].
  set (tr2 := (((tr0 ++ [Sleep 5]) ++ [BatchesRetrieve _ _]) ++ [Stdout _])).
  assert (P2 : paced tr2) by (now apply paced_still).
  set (m := if String.eqb (batch_status b) "failed"
            then print_errors b else ret tt).
  assert (P3 : paced (snd (m tr2))).
  { apply (still_preserves_paced is_stdout m); auto; [now intros []|].
    unfold m. destruct (String.eqb (batch_status b) "failed");
      [apply print_errors_emits | apply emits_ret]. }
  destruct (m tr2) as [[u|e|] tr3]; simpl in *; auto.
  now apply IH.
Qed.

Lemma upload_and_wait_paced fuel tp :
  paced (snd (upload_and_wait W fuel tp []))
  /\ no_poll (snd (upload_and_wait W fuel tp [])).
Proof.
  unfold upload_and_wait, bind, lift, remote, print, emit.
  destruct (AzureOpenAI W _ _ tp) as [c|e]; simpl; [|now split].
  destruct (open_rb W "sample.jsonl") as [content|e]; simpl; [|now split].
  destruct (files_create W content "batch") as [file|e]; simpl;
    [|now split].
  apply file_loop_paced. now split.
Qed.

Lemma body_paced fuel tp : paced (snd (batch_chat_completion W J fuel tp [])).
Proof.
  unfold batch_chat_completion. unfold bind at 1.
  destruct (upload_and_wait_paced fuel tp) as [P0 _].
  destruct (upload_and_wait W fuel tp []) as [[L0|e|] tr0]; simpl in *; auto.
  unfold bind.
  pose proof (batch_loop_paced fuel
                (mkLocals (v_file L0) (v_file_id L0) "validating"
                   (v_batch_response L0) (v_batch_id L0)) tr0 P0) as P1.
  unfold wait_for_batch.
  destruct (batch_loop W fuel _ tr0) as [[L1|e|] tr1]; simpl in *; auto.
  apply (still_preserves_paced fetch_event);
    [now intros []|apply fetch_output_emits|exact P1].
Qed.

(** X5.  In every run the sleeps are thirty seconds for each poll of the
    file status followed by five seconds for each poll of the batch
    status: the program sleeps once before every poll and at no other
    time. *)
Theorem one_sleep_before_every_poll fuel :
  sleeps_of (snd (main W J fuel []))
  = repeat 30%Z (calls is_files_retrieve (snd (main W J fuel [])))
    ++ repeat 5%Z (calls is_batches_retrieve (snd (main W J fuel []))).
Proof.
  change (paced (snd (main W J fuel []))).
  destruct (main_cases fuel) as [(ev & He & ->)|(tp & _ & ->)].
  - apply (paced_still []); [reflexivity|]. now destruct ev.
  - pose proof (body_paced fuel tp) as P. unfold try_except.
    destruct (batch_chat_completion W J fuel tp []) as [[u|e|] tr];
      simpl in *; auto.
    now apply paced_still.
Qed.

(** *** A failed batch *)

Lemma print_error_lines data tr :
  for_each data (fun error => print (error_line error)) tr
  = (Ret tt, tr ++ map (fun error => Stdout (error_line error)) data).
Proof.
  revert tr. induction data as [|x data IH]; intros tr; simpl.
  - now rewrite app_nil_r.
  - unfold bind, print, emit. simpl. rewrite IH, <- app_assoc. reflexivity.
Qed.

(** X6.  When a poll observes the status [failed], the loop ends with this
    poll.  With a list of error records it prints one line per record,
    in order, and [batch_response] is the failed batch; without an
    [errors] object the attribute access raises [AttributeError] and,
    without a list in it, the iteration raises [TypeError]: the
    retrieval of the error file is then never reached. *)
Theorem failed_batch_prints_its_errors fuel :
  forall L tr id b,
    v_batch_id L = Some id ->
    tuple_in (v_status L) terminal_statuses = false ->
    batches_retrieve W (calls is_batches_retrieve tr) id = Ok b ->
    batch_status b = "failed"%string ->
    exists t1 t2,
      let polled :=
        tr ++ [Stdout t1; Sleep 5; BatchesRetrieve id (Ok b); Stdout t2] in
      (forall data,
         batch_errors b = Some (mkErrors (Some data)) ->
         batch_loop W (S fuel) L tr
         = (Ret (mkLocals (v_file L) (v_file_id L) "failed" (Some b) (Some id)),
            polled ++ map (fun error => Stdout (error_line error)) data))
      /\ (batch_errors b = None ->
          bind (batch_loop W (S fuel) L) (fetch_output W J) tr
          = (Raise (Exception (mkError "AttributeError"
                                 "'NoneType' object has no attribute 'data'")),
             polled))
      /\ (batch_errors b = Some (mkErrors None) ->
          bind (batch_loop W (S fuel) L) (fetch_output W J) tr
          = (Raise (Exception (mkError "TypeError"
                                 "'NoneType' object is not iterable")),
             polled)).
Proof.
  intros L tr id b Hid T R F. do 2 eexists. cbv zeta.
  assert (C : forall t,
             calls is_batches_retrieve ((tr ++ [Stdout t]) ++ [Sleep 5])
             = calls is_batches_retrieve tr)
    by (intros t; rewrite !calls_snoc; simpl; lia).
  split; [|split].
  - intros data E. cbn [batch_loop]. rewrite T. cbn [negb].
    unfold bind, now, read_local, print, time_sleep, emit, remote_nth, remote.
    rewrite Hid. simpl. rewrite C, R. simpl. rewrite F. simpl.
    unfold print_errors. rewrite E. cbn [errors_data].
    change (for_each data _) with
      (for_each data (fun error => print (error_line error))).
    rewrite print_error_lines. rewrite batch_loop_terminal by reflexivity.
    rewrite <- !app_assoc. reflexivity.
  - intros E. unfold bind at 1. cbn [batch_loop]. rewrite T. cbn [negb].
    unfold bind, now, read_local, print, time_sleep, emit, remote_nth, remote.
    rewrite Hid. simpl. rewrite C, R. simpl. rewrite F. simpl.
    unfold print_errors. rewrite E. simpl. rewrite <- !app_assoc. reflexivity.
  - intros E. unfold bind at 1. cbn [batch_loop]. rewrite T. cbn [negb].
    unfold bind, now, read_local, print, time_sleep, emit, remote_nth, remote.
    rewrite Hid. simpl. rewrite C, R. simpl. rewrite F. simpl.
    unfold print_errors. rewrite E. simpl. rewrite <- !app_assoc. reflexivity.
Qed.

(** *** Result files that are not newline-delimited JSON *)

Lemma print_records_stop good bad rest values e tr :
  Forall2 (fun l v => json_loads J l = Ok v) good values ->
  json_loads J bad = Err e ->
  for_each (good ++ bad :: rest) (print_record J) tr
  = (Raise (Exception e),
     tr ++ map (fun v => Stdout (json_dumps J v 2)) values).
Proof.
  intros F B. revert tr. induction F as [|l v good values E F IH]; intros tr.
  - simpl. unfold bind at 1, print_record at 1. unfold bind at 1, lift at 1.
    rewrite B. simpl. now rewrite app_nil_r.
  - cbn [app for_each map]. unfold bind at 1, print_record at 1.
    unfold bind at 1, lift at 1. rewrite E. cbn [ret print emit].
    rewrite IH, <- app_assoc. reflexivity.
Qed.

(** X7.  When a line of the result file is not JSON, the records before it
    are printed, [json.loads] raises at that line, and the records after
    it are never printed. *)
Theorem bad_line_stops_the_printing :
  forall L tr b id text leader good bad rest trailer values e,
    v_batch_response L = Some b ->
    select_file_id b = Some id -> id <> EmptyString ->
    files_content W id = Ok text ->
    text = (leader ++ join_lines (good ++ bad :: rest) ++ trailer)%string ->
    Forall (fun l => has_newline l = false) (good ++ bad :: rest) ->
    starts_clean (hd EmptyString (good ++ bad :: rest)) = true ->
    ends_clean (last (good ++ bad :: rest) EmptyString) = true ->
    blank leader = true ->
    blank trailer = true ->
    Forall2 (fun l v => json_loads J l = Ok v) good values ->
    json_loads J bad = Err e ->
    fetch_output W J L tr
    = (Raise (Exception e),
       tr ++ FilesContent id (Ok text)
          :: map (fun v => Stdout (json_dumps J v 2)) values).
Proof.
  intros L tr b id text leader good bad rest trailer values e
    B S N C -> F Hs He Hl Ht P E.
  rewrite (fetch_output_selected W J L tr b id B S N).
  unfold remote, bind, emit. rewrite C. cbn [lift ret].
  rewrite records_of_text by assumption.
  rewrite (print_records_stop good bad rest values e _ P E), <- app_assoc.
  reflexivity.
Qed.

Lemma lstrip_blank w : blank w = true -> lstrip w = EmptyString.
Proof.
  induction w as [|c w IH]; simpl; [reflexivity|].
  intros H. apply andb_prop in H as [Hc Hw]. rewrite Hc. now apply IH.
Qed.

(** X8.  A result file of white space only (an empty file, a lone line
    break) is not taken as a file without records: the program hands the
    empty string to [json.loads], and its error ends the run with
    nothing printed. *)
Theorem blank_file_is_parsed_as_one_empty_line :
  forall L tr b id text e,
    v_batch_response L = Some b ->
    select_file_id b = Some id -> id <> EmptyString ->
    files_content W id = Ok text ->
    blank text = true ->
    json_loads J EmptyString = Err e ->
    fetch_output W J L tr
    = (Raise (Exception e), tr ++ [FilesContent id (Ok text)]).
Proof.
  intros L tr b id text e B S N C Hb E.
  rewrite (fetch_output_selected W J L tr b id B S N).
  unfold remote, bind, emit. rewrite C. cbn [lift ret].
  unfold strip. rewrite (lstrip_blank text Hb). simpl.
  unfold bind, print_record, bind, lift. rewrite E. reflexivity.
Qed.

(** *** The error records of a run *)

Lemma body_emits fuel tp :
  emits body_event (batch_chat_completion W J fuel tp).
Proof.
  unfold batch_chat_completion. apply emits_bind; [|intros L; apply emits_bind].
  - apply emits_weaken with (ok := upload_event);
      [|apply upload_and_wait_emits].
    intros e H. unfold body_event. now rewrite H.
  - apply emits_weaken with (ok := poll_event); [|apply batch_loop_emits].
    intros e H. unfold body_event. rewrite H. now rewrite orb_true_r.
  - intros L'. apply emits_weaken with (ok := fetch_event);
      [|apply fetch_output_emits].
    intros e H. unfold body_event. rewrite H. now rewrite !orb_true_r.
Qed.

(** X9.  A run is a sequence of prints, sleeps and remote calls followed by
    at most one error record: once an error is reported (on the standard
    error stream or in the log) the program does nothing more.  The
    error record is there exactly when the run ended on a failed
    start-up step or on an exception caught by the handler of [main]. *)
Theorem error_record_is_last fuel :
  exists body errs,
    snd (main W J fuel []) = body ++ errs
    /\ forallb body_event body = true
    /\ forallb setup_event errs = true
    /\ length errs <= 1
    /\ (errs = [] <->
        exists tp,
          setup_succeeds W scope tp
          /\ forall e, fst (batch_chat_completion W J fuel tp []) <> Raise e).
Proof.
  destruct (main_cases fuel) as [(ev & He & E)|(tp & S & E)].
  - exists [], [ev]. rewrite E. simpl. rewrite He.
    repeat split; auto; try discriminate.
    intros (tp & S & _).
    pose proof (main_after_setup W J fuel tp [] S) as E'.
    rewrite E in E'. unfold try_except in E'.
    destruct (batch_chat_completion W J fuel tp []) as [[u|e|] tr];
      discriminate.
  - rewrite E. unfold try_except.
    destruct (body_emits fuel tp []) as (ev & Eb & F). simpl in Eb.
    destruct (batch_chat_completion W J fuel tp []) as [[u|e|] tr] eqn:B;
      simpl in *; subst tr.
    + exists ev, []. rewrite app_nil_r. repeat split; auto.
      intros _. exists tp. split; [exact S|]. rewrite B. discriminate.
    + exists ev, [LogError "Failed batch chat completion: " e].
      repeat split; auto; try discriminate.
      intros (tp' & S' & N). exfalso.
      assert (tp' = tp) as ->.
      { destruct S as (_ & _ & c & Hc & Ht), S' as (_ & _ & c' & Hc' & Ht').
        congruence. }
      rewrite B in N. now apply (N e).
    + exists ev, []. rewrite app_nil_r. repeat split; auto.
      intros _. exists tp. split; [exact S|]. rewrite B. discriminate.
Qed.

(** *** The first loop, when the file becomes processed *)

(** X10.  When the polls before the k-th one report statuses that are not
    substrings of ["processed"], the k-th one reports one that is, and
    the submissions succeed, the first loop ends within k+1 iterations,
    having polled k+1 times and submitted k+1 batch jobs. *)
Theorem file_loop_ends_when_processed k :
  forall L tr fuel,
    str_in (v_status L) "processed" = false ->
    (forall i, i < k -> exists f,
       files_retrieve W (calls is_files_retrieve tr + i) (v_file_id L) = Ok f
       /\ str_in (file_status f) "processed" = false) ->
    (exists f,
       files_retrieve W (calls is_files_retrieve tr + k) (v_file_id L) = Ok f
       /\ str_in (file_status f) "processed" = true) ->
    (forall n fid, exists b,
       batches_create W n fid "/chat/completions" "24h" = Ok b) ->
    k < fuel ->
    exists L' tr',
      file_loop W fuel L tr = (Ret L', tr')
      /\ str_in (v_status L') "processed" = true
      /\ calls is_files_retrieve tr' = calls is_files_retrieve tr + (k + 1)
      /\ calls is_batches_create tr' = calls is_batches_create tr + (k + 1).
Proof.
  induction k as [|k IH]; intros L tr fuel T Hearly Hlast Hb Hfuel;
    (destruct fuel as [|fuel]; [lia|]); cbn [file_loop]; rewrite T; simpl;
    unfold bind, now, print, time_sleep, emit, remote_nth, remote; simpl;
    set (tr1 := (tr ++ [Stdout _]) ++ [Sleep _]);
    assert (C1 : calls is_files_retrieve tr1 = calls is_files_retrieve tr)
      by (unfold tr1; rewrite !calls_snoc; simpl; lia);
    assert (D1 : calls is_batches_create tr1 = calls is_batches_create tr)
      by (unfold tr1; rewrite !calls_snoc; simpl; lia);
    rewrite C1.
  - destruct Hlast as (f & Ef & Tf). rewrite Nat.add_0_r in Ef.
    rewrite Ef. simpl.
    set (tr2 := (tr1 ++ [FilesRetrieve _ _]) ++ [Stdout _]).
    destruct (Hb (calls is_batches_create tr2) (file_id f)) as (b & ->).
    simpl. rewrite file_loop_done by exact Tf.
    do 2 eexists. split; [reflexivity|]. split; [exact Tf|].
    unfold tr2. rewrite !calls_snoc, C1, D1. simpl. lia.
  - destruct (Hearly 0 ltac:(lia)) as (f & Ef & Tf).
    rewrite Nat.add_0_r in Ef. rewrite Ef. simpl.
    set (tr2 := (tr1 ++ [FilesRetrieve _ _]) ++ [Stdout _]).
    destruct (Hb (calls is_batches_create tr2) (file_id f)) as (b & ->).
    simpl.
    set (tr3 := (tr2 ++ [BatchesCreate _ _ _ _]) ++ [Stdout _]).
    assert (C3 : calls is_files_retrieve tr3 = calls is_files_retrieve tr + 1)
      by (unfold tr3, tr2; rewrite !calls_snoc, C1; simpl; lia).
    assert (D3 : calls is_batches_create tr3 = calls is_batches_create tr + 1)
      by (unfold tr3, tr2; rewrite !calls_snoc, D1; simpl; lia).
    match goal with
    | |- context [file_loop W fuel ?L' tr3] =>
        destruct (IH L' tr3 fuel) as (L1 & tr' & R & T1 & C & D)
    end; simpl; auto; try lia.
    + intros i Hi. rewrite C3.
      replace (calls is_files_retrieve tr + 1 + i)
        with (calls is_files_retrieve tr + S i) by lia.
      apply Hearly. lia.
    + rewrite C3.
      replace (calls is_files_retrieve tr + 1 + k)
        with (calls is_files_retrieve tr + S k) by lia.
      exact Hlast.
    + exists L1, tr'. split; [exact R|]. split; [exact T1|]. lia.
Qed.

(** *** Failures before the first poll *)

(** X11.  When the client cannot be made, the input file cannot be opened or
    the upload is refused, the run ends there: the error is logged, no
    file status is polled, no batch job is submitted, and [main]
    returns. *)
Theorem failed_upload_ends_the_run fuel :
  forall tp,
    setup_succeeds W scope tp ->
    (forall e,
       AzureOpenAI W (getenv W "OPENAI_API_VERSION")
         (getenv W "AZURE_OPENAI_ENDPOINT") tp = Err e ->
       main W J fuel []
       = (Ret tt, [LogError "Failed batch chat completion: " (Exception e)]))
    /\ (forall c e,
          AzureOpenAI W (getenv W "OPENAI_API_VERSION")
            (getenv W "AZURE_OPENAI_ENDPOINT") tp = Ok c ->
          open_rb W "sample.jsonl" = Err e ->
          main W J fuel []
          = (Ret tt,
             [LogError "Failed batch chat completion: " (Exception e)]))
    /\ (forall c content e,
          AzureOpenAI W (getenv W "OPENAI_API_VERSION")
            (getenv W "AZURE_OPENAI_ENDPOINT") tp = Ok c ->
          open_rb W "sample.jsonl" = Ok content ->
          files_create W content "batch" = Err e ->
          main W J fuel []
          = (Ret tt,
             [ FilesCreate content "batch" (Err e);
               LogError "Failed batch chat completion: " (Exception e) ])).
Proof.
  intros tp S. rewrite (main_after_setup W J fuel tp [] S).
  unfold try_except, batch_chat_completion, upload_and_wait.
  unfold bind, lift, remote, emit, logging_error.
  split; [|split].
  - intros e ->. reflexivity.
  - intros c e -> ->. reflexivity.
  - intros c content e H1 H2 H3. rewrite H1. simpl.
    rewrite H2. simpl. rewrite H3. reflexivity.
Qed.

End Parts.
(** *** Instances *)

Import Scenario.

Lemma file_polls_name_the_uploaded_file_witness :
  exists content f,
    In (FilesCreate content "batch" (Ok f))
      (firstn 4 (snd (main two_polls Json.lib 5 [])))
    /\ "file-1"%string = file_id f.
Proof.
  apply (file_polls_name_the_uploaded_file two_polls Json.lib 5
           _ _ (Ok (mkFile "file-1" "pending"))
           (skipn 5 (snd (main two_polls Json.lib 5 [])))).
  vm_compute. reflexivity.
Defined.

Lemma submissions_name_a_polled_file_witness :
  "/chat/completions"%string = "/chat/completions"%string
  /\ "24h"%string = "24h"%string
  /\ exists id f,
       In (FilesRetrieve id (Ok f))
         (firstn 6 (snd (main two_polls Json.lib 5 [])))
       /\ "file-1"%string = file_id f.
Proof.
  apply (submissions_name_a_polled_file two_polls Json.lib 5
           _ _ _ _ (Ok created)
           (skipn 7 (snd (main two_polls Json.lib 5 [])))).
  vm_compute. reflexivity.
Defined.

Lemma batch_polls_name_a_submitted_batch_witness :
  exists fid b,
    In (BatchesCreate fid "/chat/completions" "24h" (Ok b))
      (firstn 16 (snd (main two_polls Json.lib 5 [])))
    /\ "batch-1"%string = batch_id b.
Proof.
  apply (batch_polls_name_a_submitted_batch two_polls Json.lib 5
           _ _ (Ok (batch_with "in_progress" None None))
           (skipn 17 (snd (main two_polls Json.lib 5 [])))).
  vm_compute. reflexivity.
Defined.

Lemma retrieval_follows_a_terminal_status_witness :
  exists bid b,
    In (BatchesRetrieve bid (Ok b))
      (firstn 22 (snd (main two_polls Json.lib 5 [])))
    /\ tuple_in (batch_status b) terminal_statuses = true
    /\ select_file_id b = Some "file-out"%string.
Proof.
  apply (proj2 (retrieval_follows_a_terminal_status two_polls Json.lib 5)
           _ _ (Ok two_records)
           (skipn 23 (snd (main two_polls Json.lib 5 [])))).
  vm_compute. reflexivity.
Defined.

Lemma failed_batch_prints_its_errors_witness :
  (exists t1 t2,
     batch_loop only_error_file 2
       (mkLocals (mkFile "file-1" "processed") "file-1" "validating"
          (Some created) (Some "batch-1")) []
     = (Ret (mkLocals (mkFile "file-1" "processed") "file-1" "failed"
               (Some failed_batch) (Some "batch-1")),
        ([] ++ [ Stdout t1; Sleep 5;
                 BatchesRetrieve "batch-1" (Ok failed_batch); Stdout t2 ])
          ++ map (fun error => Stdout (error_line error))
               [mkBatchError (Some "invalid_request"%string)
                  (Some "The request is not valid."%string)]))
  /\ (exists t1 t2,
        bind (batch_loop failed_without_errors 2
                (mkLocals (mkFile "file-1" "processed") "file-1" "validating"
                   (Some created) (Some "batch-1")))
          (fetch_output failed_without_errors Json.lib) []
        = (Raise (Exception (mkError "AttributeError"
                               "'NoneType' object has no attribute 'data'")),
           [] ++ [ Stdout t1; Sleep 5;
                   BatchesRetrieve "batch-1"
                     (Ok (batch_with "failed" None (Some "file-err")));
                   Stdout t2 ])).
Proof.
  split.
  - destruct (failed_batch_prints_its_errors only_error_file Json.lib 1
                (mkLocals (mkFile "file-1" "processed") "file-1" "validating"
                   (Some created) (Some "batch-1")) [] "batch-1" failed_batch
                eq_refl eq_refl eq_refl eq_refl) as (t1 & t2 & H & _).
    exists t1, t2. apply H. reflexivity.
  - destruct (failed_batch_prints_its_errors failed_without_errors Json.lib 1
                (mkLocals (mkFile "file-1" "processed") "file-1" "validating"
                   (Some created) (Some "batch-1")) [] "batch-1"
                (batch_with "failed" None (Some "file-err"))
                eq_refl eq_refl eq_refl eq_refl) as (t1 & t2 & _ & H & _).
    exists t1, t2. apply H. reflexivity.
Defined.

Lemma bad_line_stops_the_printing_witness :
  fetch_output bad_line Json.lib
    (mkLocals (mkFile "file-1" "processed") "file-1" "completed"
       (Some (batch_with "completed" (Some "file-bad") None))
       (Some "batch-1")) []
  = (Raise (Exception (mkError "JSONDecodeError" "Expecting value")),
     [] ++ FilesContent "file-bad"
             (Ok (json_text "{'a':1}" ++ String newline "not json"
                    ++ String newline (json_text "{'b':2}"))%string)
        :: map (fun v => Stdout (json_dumps Json.lib v 2))
             [Json.JObject [("a"%string, Json.JInt 1)]]).
Proof.
  apply (bad_line_stops_the_printing bad_line Json.lib
           _ [] (batch_with "completed" (Some "file-bad") None) "file-bad"
           _ EmptyString [json_text "{'a':1}"] "not json"%string
           [json_text "{'b':2}"] EmptyString).
  - reflexivity.
  - reflexivity.
  - discriminate.
  - reflexivity.
  - reflexivity.
  - repeat constructor.
  - reflexivity.
  - reflexivity.
  - reflexivity.
  - reflexivity.
  - repeat constructor.
  - reflexivity.
Defined.

Lemma blank_file_is_parsed_as_one_empty_line_witness :
  fetch_output blank_file Json.lib
    (mkLocals (mkFile "file-1" "processed") "file-1" "completed"
       (Some (batch_with "completed" (Some "file-blank") None))
       (Some "batch-1")) []
  = (Raise (Exception (mkError "JSONDecodeError" "Expecting value")),
     [] ++ [FilesContent "file-blank" (Ok (String newline EmptyString))]).
Proof.
  apply (blank_file_is_parsed_as_one_empty_line blank_file Json.lib
           _ [] (batch_with "completed" (Some "file-blank") None)
           "file-blank").
  - reflexivity.
  - reflexivity.
  - discriminate.
  - reflexivity.
  - reflexivity.
  - reflexivity.
Defined.

Lemma file_loop_ends_when_processed_witness :
  exists L' tr',
    file_loop three_polls 3
      (mkLocals (mkFile "file-1" "pending") "file-1" "pending" None None) []
    = (Ret L', tr')
    /\ str_in (v_status L') "processed" = true
    /\ calls is_files_retrieve tr' = calls is_files_retrieve [] + (2 + 1)
    /\ calls is_batches_create tr' = calls is_batches_create [] + (2 + 1).
Proof.
  apply (file_loop_ends_when_processed three_polls 2).
  - reflexivity.
  - intros i Hi. destruct i as [|[|i]].
    + eexists. split; reflexivity.
    + eexists. split; reflexivity.
    + lia.
  - eexists. split; reflexivity.
  - intros n fid. eexists. reflexivity.
  - lia.
Defined.

Lemma failed_upload_ends_the_run_witness :
  main (upload_service (Err (mkError "OpenAIError" "Missing credentials"))
          (Ok "{}"%string) (Ok (mkFile "file-1" "pending")))
    Json.lib 3 []
  = (Ret tt,
     [LogError "Failed batch chat completion: "
        (Exception (mkError "OpenAIError" "Missing credentials"))])
  /\ main (upload_service (Ok 0)
             (Err (mkError "FileNotFoundError" "sample.jsonl"))
             (Ok (mkFile "file-1" "pending")))
       Json.lib 3 []
     = (Ret tt,
        [LogError "Failed batch chat completion: "
           (Exception (mkError "FileNotFoundError" "sample.jsonl"))])
  /\ main (upload_service (Ok 0) (Ok "{}"%string)
             (Err (mkError "BadRequestError" "Invalid file")))
       Json.lib 3 []
     = (Ret tt,
        [ FilesCreate "{}" "batch"
            (Err (mkError "BadRequestError" "Invalid file"));
          LogError "Failed batch chat completion: "
            (Exception (mkError "BadRequestError" "Invalid file")) ]).
Proof.
  assert (S : forall made opened uploaded,
             setup_succeeds (upload_service made opened uploaded) scope 0).
  { intros. split; [reflexivity|]. split.
    - exists true. reflexivity.
    - exists 0. split; reflexivity. }
  split; [|split].
  - apply (proj1 (failed_upload_ends_the_run _ Json.lib 3 0 (S _ _ _))).
    reflexivity.
  - apply (proj1 (proj2 (failed_upload_ends_the_run _ Json.lib 3 0 (S _ _ _)))
             0).
    + reflexivity.
    + reflexivity.
  - apply (proj2 (proj2 (failed_upload_ends_the_run _ Json.lib 3 0 (S _ _ _)))
             0).
    + reflexivity.
    + reflexivity.
    + reflexivity.
Defined.

End BatchMore.

(** ** More on the start-up steps *)

Module StartupMore.
Import Py Sdk Sdk.Notations Run Logic.
Local Open Scope list_scope.

Lemma upper_char_idempotent c : upper_char (upper_char c) = upper_char c.
Proof. destruct c as [[] [] [] [] [] [] [] []]; reflexivity. Qed.

Lemma upper_idempotent s : upper (upper s) = upper s.
Proof.
  induction s as [|c s IH]; simpl; [reflexivity|].
  now rewrite upper_char_idempotent, IH.
Qed.

(** X12.  [configure_logging] reads the level name in upper case, so the
    letter case of the name does not matter; and it never lets an
    exception of the logging set-up through: it returns without any
    output, or it prints one line with the error on the standard error
    stream and exits with status 1. *)
Theorem configure_logging_returns_or_exits W level tr :
  configure_logging W (upper level) tr = configure_logging W level tr
  /\ ((logging_basicConfig W (logging_getattr (upper level)) = Ok tt
       /\ configure_logging W level tr = (Ret tt, tr))
      \/ (exists e,
            logging_basicConfig W (logging_getattr (upper level)) = Err e
            /\ configure_logging W level tr
               = (Raise (SystemExit 1),
                  tr ++ [Stderr ("Failed to set up logging: "
                                   ++ err_msg e)%string]))).
Proof.
  split.
  - unfold configure_logging. now rewrite upper_idempotent.
  - unfold configure_logging, try_except_Exception, lift.
    destruct (logging_basicConfig W (logging_getattr (upper level)))
      as [[]|e].
    + left. split; reflexivity.
    + right. exists e. split; reflexivity.
Qed.

(** X13.  [authenticate_with_service_principal] never lets an exception
    through: it returns the token provider and leaves no trace, or it
    logs the failure of the credential or of the provider once and
    exits with status 1. *)
Theorem authenticate_returns_or_exits W scope tr :
  (exists cred tp,
     DefaultAzureCredential W = Ok cred
     /\ get_bearer_token_provider W cred scope = Ok tp
     /\ authenticate_with_service_principal W scope tr = (Ret tp, tr))
  \/ (exists e,
        (DefaultAzureCredential W = Err e
         \/ exists cred,
              DefaultAzureCredential W = Ok cred
              /\ get_bearer_token_provider W cred scope = Err e)
        /\ authenticate_with_service_principal W scope tr
           = (Raise (SystemExit 1),
              tr ++ [LogError "Failed to obtain access token: "
                       (Exception e)])).
Proof.
  unfold authenticate_with_service_principal, try_except, bind, lift.
  destruct (DefaultAzureCredential W) as [cred|e] eqn:C; simpl.
  - destruct (get_bearer_token_provider W cred scope) as [tp|e] eqn:T; simpl.
    + left. exists cred, tp. auto.
    + right. exists e. split; [|reflexivity]. right. exists cred. auto.
  - right. exists e. split; [|reflexivity]. now left.
Qed.

Lemma authenticate_failure W scope e tr :
  (DefaultAzureCredential W = Err e
   \/ exists cred,
        DefaultAzureCredential W = Ok cred
        /\ get_bearer_token_provider W cred scope = Err e) ->
  authenticate_with_service_principal W scope tr
  = (Raise (SystemExit 1),
     tr ++ [LogError "Failed to obtain access token: " (Exception e)]).
Proof.
  unfold authenticate_with_service_principal, try_except, bind, lift.
  intros [D|(cred & D & T)]; rewrite D; simpl; [reflexivity|].
  rewrite T. reflexivity.
Qed.

Section Order.
Variable W : World.
Variable scope : string.
Variable rest : token_provider -> M unit.

Lemma startup_failure_shape :
  (forall e,
     logging_basicConfig W (Some 40%Z) = Err e ->
     main_shape W scope rest []
     = (Raise (SystemExit 1),
        [Stderr ("Failed to set up logging: " ++ err_msg e)%string]))
  /\ (forall e,
        logging_basicConfig W (Some 40%Z) = Ok tt ->
        load_dotenv W ".env" = Err e ->
        main_shape W scope rest []
        = (Raise (SystemExit 1),
           [LogError "Failed to load environmental variables: "
              (Exception e)]))
  /\ (forall loaded e,
        logging_basicConfig W (Some 40%Z) = Ok tt ->
        load_dotenv W ".env" = Ok loaded ->
        (DefaultAzureCredential W = Err e
         \/ exists cred,
              DefaultAzureCredential W = Ok cred
              /\ get_bearer_token_provider W cred scope = Err e) ->
        main_shape W scope rest []
        = (Raise (SystemExit 1),
           [LogError "Failed to obtain access token: " (Exception e)])).
Proof.
  unfold main_shape, configure_logging, try_except_Exception, bind, lift.
  replace (logging_getattr (upper "ERROR")) with (Some 40%Z) by reflexivity.
  split; [|split].
  - intros e ->. reflexivity.
  - intros e -> D. cbn -[authenticate_with_service_principal].
    rewrite D. reflexivity.
  - intros loaded e -> D A. cbn -[authenticate_with_service_principal].
    rewrite D. cbn -[authenticate_with_service_principal].
    rewrite (authenticate_failure W scope e [] A). reflexivity.
Qed.

End Order.

(** X14.  In both programs the start-up steps run in order and the first
    failure ends the run, reported by the message of its step: a failed
    logging set-up on the standard error stream, a failed load of the
    configuration and a failed authentication in the log.  The steps
    after the failed one and the rest of the program are not run. *)
Theorem first_startup_failure_ends_the_run W J fuel :
  (forall e,
     logging_basicConfig W (Some 40%Z) = Err e ->
     let report :=
       [Stderr ("Failed to set up logging: " ++ err_msg e)%string] in
     Batch.main W J fuel [] = (Raise (SystemExit 1), report)
     /\ DataSources.main W [] = (Raise (SystemExit 1), report))
  /\ (forall e,
        logging_basicConfig W (Some 40%Z) = Ok tt ->
        load_dotenv W ".env" = Err e ->
        let report :=
          [LogError "Failed to load environmental variables: "
             (Exception e)] in
        Batch.main W J fuel [] = (Raise (SystemExit 1), report)
        /\ DataSources.main W [] = (Raise (SystemExit 1), report))
  /\ (forall loaded e,
        logging_basicConfig W (Some 40%Z) = Ok tt ->
        load_dotenv W ".env" = Ok loaded ->
        (DefaultAzureCredential W = Err e
         \/ exists cred,
              DefaultAzureCredential W = Ok cred
              /\ get_bearer_token_provider W cred Batch.scope = Err e) ->
        let report :=
          [LogError "Failed to obtain access token: " (Exception e)] in
        Batch.main W J fuel [] = (Raise (SystemExit 1), report)
        /\ DataSources.main W [] = (Raise (SystemExit 1), report)).
Proof.
  split; [|split].
  - intros e L. split.
    + now apply (proj1 (startup_failure_shape W Batch.scope _)).
    + now apply (proj1 (startup_failure_shape W DataSources.scope _)).
  - intros e L D. split.
    + now apply (proj1 (proj2 (startup_failure_shape W Batch.scope _))).
    + now apply (proj1 (proj2 (startup_failure_shape W DataSources.scope _))).
  - intros loaded e L D A. split.
    + now apply (proj2 (proj2 (startup_failure_shape W Batch.scope _))
                   loaded).
    + now apply (proj2 (proj2 (startup_failure_shape W DataSources.scope _))
                   loaded).
Qed.

Import Scenario.

Lemma first_startup_failure_ends_the_run_witness :
  (Batch.main
     (startup_service (Err (mkError "ValueError" "Unknown level"))
        (Ok true) (Ok 0) (Ok 0)) Json.lib 3 []
   = (Raise (SystemExit 1),
      [Stderr ("Failed to set up logging: "
                 ++ err_msg (mkError "ValueError" "Unknown level"))%string])
   /\ DataSources.main
        (startup_service (Err (mkError "ValueError" "Unknown level"))
           (Ok true) (Ok 0) (Ok 0)) []
      = (Raise (SystemExit 1),
         [Stderr ("Failed to set up logging: "
                    ++ err_msg (mkError "ValueError" "Unknown level"))%string]))
  /\ (Batch.main
        (startup_service (Ok tt) (Err (mkError "OSError" "unreadable"))
           (Ok 0) (Ok 0)) Json.lib 3 []
      = (Raise (SystemExit 1),
         [LogError "Failed to load environmental variables: "
            (Exception (mkError "OSError" "unreadable"))])
      /\ DataSources.main
           (startup_service (Ok tt) (Err (mkError "OSError" "unreadable"))
              (Ok 0) (Ok 0)) []
         = (Raise (SystemExit 1),
            [LogError "Failed to load environmental variables: "
               (Exception (mkError "OSError" "unreadable"))]))
  /\ (Batch.main
        (startup_service (Ok tt) (Ok true)
           (Err (mkError "CredentialUnavailableError" "no credential"))
           (Ok 0)) Json.lib 3 []
      = (Raise (SystemExit 1),
         [LogError "Failed to obtain access token: "
            (Exception
               (mkError "CredentialUnavailableError" "no credential"))])
      /\ DataSources.main
           (startup_service (Ok tt) (Ok true)
              (Err (mkError "CredentialUnavailableError" "no credential"))
              (Ok 0)) []
         = (Raise (SystemExit 1),
            [LogError "Failed to obtain access token: "
               (Exception
                  (mkError "CredentialUnavailableError" "no credential"))])).
Proof.
  split; [|split].
  - apply (proj1 (first_startup_failure_ends_the_run _ Json.lib 3)).
    reflexivity.
  - apply (proj1 (proj2 (first_startup_failure_ends_the_run _ Json.lib 3))).
    + reflexivity.
    + reflexivity.
  - apply (proj2 (proj2 (first_startup_failure_ends_the_run _ Json.lib 3))
             true).
    + reflexivity.
    + reflexivity.
    + left. reflexivity.
Defined.

End StartupMore.

(** ** More on the augmented chat requester *)

Module DataSourcesMore.
Import Py Sdk Sdk.Notations Run Logic DataSources DataSourcesFacts.
Local Open Scope list_scope.

Section Requester.
Variable W : World.

(** X15.  The chat requester has no loop and always ends: [main] returns, or
    a start-up step exits with status 1.  The exit status is 1 exactly
    when a start-up step fails and 0 otherwise, whatever happens to the
    request; and at most one line is printed. *)
Theorem chat_requester_always_ends :
  (fst (main W []) = Ret tt \/ fst (main W []) = Raise (SystemExit 1))
  /\ (exit_code (fst (main W [])) = Some 1%Z <-> setup_fails W scope)
  /\ (exit_code (fst (main W [])) = Some 0%Z <->
      exists tp, setup_succeeds W scope tp)
  /\ length (stdout_of (snd (main W []))) <= 1.
Proof.
  destruct (SetupFacts.setup_decided W scope) as [F|(tp & S)].
  - destruct (chat_main_setup_fails W [] F) as (ev & He & E). rewrite E.
    simpl. repeat split; auto; try discriminate.
    + intros (tp & S). pose proof (chat_main_after_setup W tp [] S) as E'.
      rewrite E in E'. unfold try_except in E'.
      destruct (chat_completion W tp []) as [[u|e|] tr]; discriminate.
    + destruct ev; try discriminate; simpl; lia.
  - assert (R : fst (main W []) = Ret tt).
    { rewrite (chat_main_after_setup W tp [] S).
      unfold try_except, chat_completion, remote, first, bind, lift, print,
        logging_error, emit.
      destruct (AzureOpenAI W _ _ tp) as [c|e]; simpl; [|reflexivity].
      destruct (chat_completions_create W (chat_request W))
        as [response|e]; simpl; [|reflexivity].
      destruct (choices response); reflexivity. }
    rewrite R. simpl. repeat split; eauto; try discriminate.
    + intros F. exfalso.
      destruct (chat_main_setup_fails W [] F) as (ev & _ & E).
      rewrite E in R. discriminate.
    + destruct (main_trace W) as [(ev & He & ->)|(r & ev & He & ->)].
      * destruct ev; try discriminate; simpl; lia.
      * destruct ev; try discriminate; simpl; lia.
Qed.

(** X16.  After a successful start-up every failure of the request is logged
    once and [main] returns: a client that cannot be made sends no
    request, a refused request prints nothing, and an answer without
    choices raises [IndexError] at the subscript.  A first choice
    without content prints the text [None]. *)
Theorem chat_failures_are_logged :
  forall tp,
    setup_succeeds W scope tp ->
    (forall e,
       AzureOpenAI W (getenv W "OPENAI_API_VERSION")
         (getenv W "AZURE_OPENAI_ENDPOINT") tp = Err e ->
       main W []
       = (Ret tt, [LogError "Failed chat completion: " (Exception e)]))
    /\ (forall c,
          AzureOpenAI W (getenv W "OPENAI_API_VERSION")
            (getenv W "AZURE_OPENAI_ENDPOINT") tp = Ok c ->
          (forall e,
             chat_completions_create W (chat_request W) = Err e ->
             main W []
             = (Ret tt,
                [ ChatCreate (chat_request W) (Err e);
                  LogError "Failed chat completion: " (Exception e) ]))
          /\ (forall response,
                chat_completions_create W (chat_request W) = Ok response ->
                choices response = [] ->
                main W []
                = (Ret tt,
                   [ ChatCreate (chat_request W) (Ok response);
                     LogError "Failed chat completion: "
                       (Exception
                          (mkError "IndexError"
                             "list index out of range")) ]))
          /\ (forall response rest,
                chat_completions_create W (chat_request W) = Ok response ->
                choices response = mkChoice None :: rest ->
                main W []
                = (Ret tt,
                   [ ChatCreate (chat_request W) (Ok response);
                     Stdout "None" ]))).
Proof.
  intros tp S. rewrite (chat_main_after_setup W tp [] S).
  unfold try_except, chat_completion, remote, first, bind, lift, print,
    logging_error, emit.
  split.
  - intros e ->. reflexivity.
  - intros c ->. simpl. split; [|split].
    + intros e ->. reflexivity.
    + intros response -> E. simpl. now rewrite E.
    + intros response rest -> E. simpl. now rewrite E.
Qed.

End Requester.

Import Scenario.

Lemma chat_failures_are_logged_witness :
  main (chat_service (Err (mkError "OpenAIError" "Missing credentials"))
          (Ok (mkChatCompletion []))) []
  = (Ret tt,
     [LogError "Failed chat completion: "
        (Exception (mkError "OpenAIError" "Missing credentials"))])
  /\ main (chat_service (Ok 0)
             (Err (mkError "RateLimitError" "Too many requests"))) []
     = (Ret tt,
        [ ChatCreate
            (chat_request
               (chat_service (Ok 0)
                  (Err (mkError "RateLimitError" "Too many requests"))))
            (Err (mkError "RateLimitError" "Too many requests"));
          LogError "Failed chat completion: "
            (Exception (mkError "RateLimitError" "Too many requests")) ])
  /\ main (chat_service (Ok 0) (Ok (mkChatCompletion []))) []
     = (Ret tt,
        [ ChatCreate
            (chat_request (chat_service (Ok 0) (Ok (mkChatCompletion []))))
            (Ok (mkChatCompletion []));
          LogError "Failed chat completion: "
            (Exception (mkError "IndexError" "list index out of range")) ])
  /\ main (chat_service (Ok 0) (Ok (mkChatCompletion [mkChoice None]))) []
     = (Ret tt,
        [ ChatCreate
            (chat_request
               (chat_service (Ok 0) (Ok (mkChatCompletion [mkChoice None]))))
            (Ok (mkChatCompletion [mkChoice None]));
          Stdout "None" ]).
Proof.
  assert (S : forall made answer,
             setup_succeeds (chat_service made answer) scope 0).
  { intros. split; [reflexivity|]. split.
    - exists true. reflexivity.
    - exists 0. split; reflexivity. }
  split; [|split; [|split]].
  - apply (proj1 (chat_failures_are_logged _ 0 (S _ _))). reflexivity.
  - apply (proj1 (proj2 (chat_failures_are_logged _ 0 (S _ _)) 0 eq_refl)).
    reflexivity.
  - apply (proj1 (proj2 (proj2 (chat_failures_are_logged _ 0 (S _ _))
                           0 eq_refl))).
    + reflexivity.
    + reflexivity.
  - apply (proj2 (proj2 (proj2 (chat_failures_are_logged _ 0 (S _ _))
                           0 eq_refl)) _ []).
    + reflexivity.
    + reflexivity.
Defined.

End DataSourcesMore.
